(** * Payment-code generator ([_OLD/generator.py]): payloads, autocrop, packaging

    A shallow embedding of the payload encoders (HUB30 and BCD), the
    reference-number extraction, the autocrop post-processor, the symbol
    renderers and the data-URI packager, with the properties of the
    specification stated and settled against these definitions.

    Conventions of the embedding:
    - a Python [str] is a list of Unicode code points ([list N]); slicing,
      [split], [join], [startswith] and [replace] act on code points as in
      Python;
    - a Python [bytes] is a [list byte];
    - [grand_total] is a binary64 number ([PrimFloat.float]); products are
      the hardware products, conversions go through its exact value
      ([Prim2SF]);
    - a call that can raise returns [result]; code that prints or writes a
      file runs in the monad [M] over the [world] (files and standard
      output). *)

From Stdlib Require Import ZArith NArith List Lia Bool Ascii String.
From Stdlib.Strings Require Import Byte.
From Stdlib Require Import PrimFloat SpecFloat FloatOps.
From stdpp Require Import base list gmap.

Set Warnings "-inexact-float".

Local Open Scope nat_scope.

(** ** Python strings *)

Abbreviation char := N (only parsing).
Abbreviation str := (list N).

(** An ASCII literal of the source as a list of code points. *)
Definition py (s : string) : str :=
  map N_of_ascii (list_ascii_of_string s).

Definition dash : char := 45%N.      (* "-" *)
Definition newline : char := 10%N.   (* "\n" *)
Definition comma : char := 44%N.     (* "," *)
Definition dot : char := 46%N.       (* "." *)

Module PyStr.

(** [s.split(sep)] for a one-character separator: cut at every occurrence;
    the result has at least one segment. *)
Fixpoint split (sep : char) (s : str) : list str :=
  match s with
  | [] => [[]]
  | c :: s' =>
      if N.eqb c sep then [] :: split sep s'
      else match split sep s' with
           | [] => [[c]]
           | p :: ps => (c :: p) :: ps
           end
  end.

(** [sep.join(l)]. *)
Fixpoint join (sep : str) (l : list str) : str :=
  match l with
  | [] => []
  | x :: xs =>
      match xs with
      | [] => x
      | _ :: _ => x ++ sep ++ join sep xs
      end
  end.

(** [s.startswith(p)]. *)
Fixpoint startswith (p s : str) : bool :=
  match p, s with
  | [], _ => true
  | _ :: _, [] => false
  | a :: p', b :: s' => N.eqb a b && startswith p' s'
  end.

(** [s.replace(old, new)] for a one-character [old]. *)
Definition replace (old : char) (new : str) (s : str) : str :=
  flat_map (fun c => if N.eqb c old then new else [c]) s.

(** [c in s] for a character. *)
Definition contains (c : char) (s : str) : bool :=
  existsb (N.eqb c) s.

End PyStr.
Import PyStr.

(** ** Reference number ([extract_reference_number]) *)

Definition extract_reference_number (doc_name : str) : str :=
  let parts := split dash doc_name in
  if 4 <=? length parts then
    nth 1 parts [] ++ py "-" ++ nth 2 parts [] ++ py "-" ++ nth 3 parts []
  else if 3 <=? length parts then
    join (py "-") (drop (length parts - 3) parts)
  else
    take 10 doc_name.

(** ** Exceptions *)

(** The exceptions the modelled calls raise: [int] and [round] on a float
    that is not finite, [base64.b64decode], [open], indexing, [print], and
    the failures of the barcode libraries ([DataOverflowError] is qrcode's
    capacity failure; pdf417 and python-barcode raise [ValueError] and
    their own classes, [LibraryError]). *)
Inductive exn :=
| ValueError
| OverflowError
| BinasciiError
| OSError
| IndexError
| UnicodeEncodeError
| DataOverflowError
| LibraryError (what : str).

Definition bind_result {A B : Type}
    (m : result A exn) (k : A -> result B exn) : result B exn :=
  match m with
  | Ok a => k a
  | Error e => Error e
  end.

Notation "x <- m ;; k" := (bind_result m (fun x => k))
  (at level 100, m at next level, right associativity).

(** ** Numbers: [int], [round] and the formats [.2f] and [015d] *)

Module PyNum.

Local Open Scope Z_scope.

(** The exact magnitude of a finite float as a fraction [num / den], with
    the sign bit apart; nothing for infinities and NaN. *)
Definition exact (x : float) : option (bool * (Z * Z)) :=
  match Prim2SF x with
  | S754_zero s => Some (s, (0, 1))
  | S754_finite s m e =>
      if 0 <=? e then Some (s, (Zpos m * 2 ^ e, 1))
      else Some (s, (Zpos m, 2 ^ (- e)))
  | S754_infinity _ => None
  | S754_nan => None
  end.

Definition is_finite (x : float) : bool :=
  match exact x with Some _ => true | None => false end.

Definition signbit (x : float) : bool :=
  match Prim2SF x with
  | S754_zero s | S754_infinity s | S754_finite s _ _ => s
  | S754_nan => false
  end.

(** [int(x)]: truncation toward zero. *)
Definition int_of_float (x : float) : result Z exn :=
  match Prim2SF x with
  | S754_infinity _ => Error OverflowError
  | S754_nan => Error ValueError
  | _ =>
      match exact x with
      | Some (s, (num, den)) =>
          let a := num / den in Ok (if s then - a else a)
      | None => Error ValueError
      end
  end.

(** The integer nearest to [num / den], ties to the even one. *)
Definition round_half_even (num den : Z) : Z :=
  let q := num / den in
  let r := num mod den in
  if 2 * r <? den then q
  else if den <? 2 * r then q + 1
  else if Z.even q then q else q + 1.

(** [round(x)] with one argument. *)
Definition round (x : float) : result Z exn :=
  match Prim2SF x with
  | S754_infinity _ => Error OverflowError
  | S754_nan => Error ValueError
  | _ =>
      match exact x with
      | Some (s, (num, den)) =>
          let a := round_half_even num den in Ok (if s then - a else a)
      | None => Error ValueError
      end
  end.

Definition digit (d : Z) : char := Z.to_N (48 + d).

Fixpoint digits_aux (fuel : nat) (n : Z) (acc : str) : str :=
  match fuel with
  | O => acc
  | S f =>
      let acc' := digit (n mod 10) :: acc in
      if n <? 10 then acc' else digits_aux f (n / 10) acc'
  end.

(** [str(n)] for [0 <= n]. *)
Definition decimal (n : Z) : str :=
  digits_aux (S (Z.to_nat (Z.log2 n))) n [].

(** ["{:015d}".format(n)]: the sign, then zeros up to a width of 15, then
    the digits; longer when the digits do not fit. *)
Definition format_015d (n : Z) : str :=
  let sign := if n <? 0 then py "-" else [] in
  let d := decimal (Z.abs n) in
  sign ++ repeat (digit 0) (15 - length sign - length d) ++ d.

(** [f"{x:.2f}"]: the decimal expansion of the float correctly rounded to
    two places (ties to even on the exact value), "-" when the sign bit is
    set, and the names "inf" and "nan". *)
Definition format_2f (x : float) : str :=
  match Prim2SF x with
  | S754_nan => py "nan"
  | S754_infinity s => (if s then py "-" else []) ++ py "inf"
  | _ =>
      match exact x with
      | Some (s, (num, den)) =>
          let n := round_half_even (100 * num) den in
          (if s then py "-" else [])
            ++ decimal (n / 100) ++ py "."
            ++ [digit (n mod 100 / 10); digit (n mod 10)]
      | None => py "nan"
      end
  end.

End PyNum.
Import PyNum.

(** ** The document view ([MockDocument]) *)

Record MockDocument := {
  doctype : str;
  name : str;
  company : str;
  grand_total : float;
  custom_odjel : option str;
  iban : str;
  bic : str
}.

(** [dict.get(key, default)] on a literal dictionary. *)
Fixpoint dict_get (d : list (str * str)) (key : str) (default : str) : str :=
  match d with
  | [] => default
  | (k, v) :: d' => if decide (k = key) then v else dict_get d' key default
  end.

Definition c_caron : char := 269%N.   (* U+010D *)
Definition z_caron : char := 382%N.   (* U+017E *)

Definition get_document_type_label (doc : MockDocument) : str :=
  let labels :=
    [ (py "Sales Invoice", py "Ra" ++ [c_caron] ++ py "un br.");
      (py "Quotation", py "Ponuda br.");
      (py "Purchase Order", py "Narud" ++ [z_caron] ++ py "ba br.");
      (py "Delivery Note", py "Otpremnica br.") ] in
  dict_get labels (doctype doc) (py "Dokument br.").

Definition get_iban_by_department (doc : MockDocument) : str :=
  py "HR9123600001503417252".

(** ** The payload encoders *)

(** The list [lines] of [generate_hub30_payload]; [int] raises when the
    product is not finite. *)
Definition hub30_lines (doc : MockDocument) : result (list str) exn :=
  let iban := get_iban_by_department doc in
  let poziv_na_broj := extract_reference_number (name doc) in
  let doc_label := get_document_type_label doc in
  let company := company doc in
  let description := py "Racun br. " ++ poziv_na_broj in
  let company_street := py "Racka 1C" in
  let company_postal_code_and_city := py "10250 Je" ++ [z_caron] ++ py "dovec" in
  cents <- int_of_float (PrimFloat.mul (grand_total doc) 100%float) ;;
  Ok [ py "HRVHUB30";
       py "EUR";
       format_015d cents;
       [];
       [];
       [];
       company;
       company_street;
       company_postal_code_and_city;
       iban;
       py "HR00";
       poziv_na_broj;
       [];
       description;
       [] ].

Definition generate_hub30_payload (doc : MockDocument) : result str exn :=
  lines <- hub30_lines doc ;;
  Ok (join [newline] lines).

(** The list [lines] of [generate_bcd_payload]. *)
Definition bcd_lines (doc : MockDocument) : list str :=
  let iban := get_iban_by_department doc in
  let bic := bic doc in
  let amount := replace comma (py ".") (py "EUR" ++ format_2f (grand_total doc)) in
  let reference := extract_reference_number (name doc) in
  let doc_label := get_document_type_label doc in
  let description := doc_label ++ py " " ++ reference in
  let company := company doc in
  [ py "BCD";
    py "002";
    py "1";
    py "SCT";
    bic;
    company;
    iban;
    amount;
    [];
    reference;
    [];
    description ].

Definition generate_bcd_payload (doc : MockDocument) : str :=
  join [newline] (bcd_lines doc).

(** [MockDocument(data)] with the defaults of the constructor. *)
Definition default_document : MockDocument :=
  {| doctype := py "Sales Invoice";
     name := py "ACC-SINV-2024-00001";
     company := py "Moja Tvrtka d.o.o.";
     grand_total := 1500%float;
     custom_odjel := None;
     iban := py "HR1234567890123456789";
     bic := py "ZABAHR2XXXX" |}.

Definition with_total (doc : MockDocument) (x : float) : MockDocument :=
  {| doctype := doctype doc; name := name doc; company := company doc;
     grand_total := x; custom_odjel := custom_odjel doc;
     iban := iban doc; bic := bic doc |}.

Definition with_company (doc : MockDocument) (c : str) : MockDocument :=
  {| doctype := doctype doc; name := name doc; company := c;
     grand_total := grand_total doc; custom_odjel := custom_odjel doc;
     iban := iban doc; bic := bic doc |}.

(** ** Raster images (the part of PIL that [auto_crop_white] uses) *)

Module PIL.

(** An RGB pixel; the renderers convert to "RGB" before cropping. *)
Definition pixel : Type := Z * Z * Z.

Definition white : pixel := (255, 255, 255)%Z.
Definition black : pixel := (0, 0, 0)%Z.

(** An image: its size and its rows of pixels, top row first. *)
Record image := {
  width : nat;
  height : nat;
  rows : list (list pixel)
}.

(** The pixel at column [x] of row [y]; black outside the stored rows. *)
Definition pixel_at (im : image) (x y : nat) : pixel :=
  nth x (nth y (rows im) []) black.

(** The [w] by [h] image whose pixel at [(x, y)] is [f x y]. *)
Definition tabulate (w h : nat) (f : nat -> nat -> pixel) : image :=
  {| width := w;
     height := h;
     rows := map (fun y => map (fun x => f x y) (seq 0 w)) (seq 0 h) |}.

(** [Image.new(mode, size, "white")]. *)
Definition new_white (w h : nat) : image :=
  tabulate w h (fun _ _ => white).

(** [ImageChops.difference(a, b)]: the absolute difference, channel by
    channel, over the common extent. *)
Definition channel_difference (p q : pixel) : pixel :=
  let '(r1, g1, b1) := p in
  let '(r2, g2, b2) := q in
  (Z.abs (r1 - r2), Z.abs (g1 - g2), Z.abs (b1 - b2))%Z.

Definition difference (a b : image) : image :=
  tabulate (Nat.min (width a) (width b)) (Nat.min (height a) (height b))
    (fun x y => channel_difference (pixel_at a x y) (pixel_at b x y)).

Definition nonzero (p : pixel) : bool :=
  let '(r, g, b) := p in
  negb ((r =? 0)%Z && (g =? 0)%Z && (b =? 0)%Z).

Fixpoint minimum (l : list nat) : nat :=
  match l with
  | [] => 0
  | x :: l' =>
      match l' with
      | [] => x
      | _ :: _ => Nat.min x (minimum l')
      end
  end.

Definition maximum (l : list nat) : nat := fold_right Nat.max 0 l.

(** The coordinates of an image, row by row. *)
Definition coords (w h : nat) : list (nat * nat) :=
  flat_map (fun y => map (fun x => (x, y)) (seq 0 w)) (seq 0 h).

(** The box [(left, upper, right, lower)] around a list of coordinates;
    [None] for the empty list. *)
Definition bbox_of (nz : list (nat * nat)) : option (nat * nat * nat * nat) :=
  match nz with
  | [] => None
  | _ :: _ =>
      Some (minimum (map fst nz), minimum (map snd nz),
            S (maximum (map fst nz)), S (maximum (map snd nz)))
  end.

(** [im.getbbox()]: the box around the non-zero pixels, or [None] when
    there is none. *)
Definition getbbox (im : image) : option (nat * nat * nat * nat) :=
  bbox_of
    (List.filter (fun c => nonzero (pixel_at im (fst c) (snd c)))
       (coords (width im) (height im))).

(** [im.crop((left, upper, right, lower))]. *)
Definition crop (im : image) (box : nat * nat * nat * nat) : image :=
  let '(x0, y0, x1, y1) := box in
  tabulate (x1 - x0) (y1 - y0)
    (fun x y => pixel_at im (x0 + x) (y0 + y)).

End PIL.
Import PIL.

(** ** Autocrop ([auto_crop_white]) *)

Definition auto_crop_white (img : image) : image :=
  let bg := new_white (width img) (height img) in
  let diff := difference img bg in
  let bbox := getbbox diff in
  match bbox with
  | Some box => crop img box
  | None => img
  end.

(** ** Base64 (the [base64] module of the standard library) *)

Module Base64.

Local Open Scope N_scope.

Definition byte_of_N (n : N) : byte :=
  match Byte.of_N n with
  | Some b => b
  | None => x00
  end.

Definition table_b2a_base64 : list byte :=
  list_byte_of_string
    "ABCDEFGHIJKLMNOPQRSTUVWXYZabcdefghijklmnopqrstuvwxyz0123456789+/".

Definition b2a (sextet : N) : byte :=
  nth (N.to_nat sextet) table_b2a_base64 x00.

Definition BASE64_PAD : byte := "="%byte.

(** [base64.b64encode(data)]: three bytes to four characters, the last
    group padded with "=". *)
Fixpoint b64encode (data : list byte) : list byte :=
  match data with
  | [] => []
  | a :: data1 =>
      let a := Byte.to_N a in
      match data1 with
      | [] =>
          [ b2a (N.shiftr a 2);
            b2a (N.shiftl (N.land a 3) 4);
            BASE64_PAD; BASE64_PAD ]
      | b :: data2 =>
          let b := Byte.to_N b in
          match data2 with
          | [] =>
              [ b2a (N.shiftr a 2);
                b2a (N.lor (N.shiftl (N.land a 3) 4) (N.shiftr b 4));
                b2a (N.shiftl (N.land b 15) 2);
                BASE64_PAD ]
          | c :: rest =>
              let c := Byte.to_N c in
              [ b2a (N.shiftr a 2);
                b2a (N.lor (N.shiftl (N.land a 3) 4) (N.shiftr b 4));
                b2a (N.lor (N.shiftl (N.land b 15) 2) (N.shiftr c 6));
                b2a (N.land c 63) ]
              ++ b64encode rest
          end
      end
  end.

(** [bytes.decode()] on ASCII bytes, which is all that [b64encode] emits. *)
Definition decode (b : list byte) : str := map Byte.to_N b.

(** The decoding table of [binascii]: the value of an alphabet character,
    255 for any other. *)
Definition table_a2b_base64 (c : N) : N :=
  if (65 <=? c) && (c <=? 90) then c - 65
  else if (97 <=? c) && (c <=? 122) then c - 71
  else if (48 <=? c) && (c <=? 57) then c + 4
  else if c =? 43 then 62
  else if c =? 47 then 63
  else 255.

(** The loop of [binascii.a2b_base64] without [strict_mode]: characters
    outside the alphabet are skipped, a completed pad sequence ends the
    input, and a quad left open at the end is an error. *)
Fixpoint a2b_loop (ascii_data : list N) (quad_pos leftchar pads : N)
    (bin_data : list byte) : result (list byte) exn :=
  match ascii_data with
  | [] => if quad_pos =? 0 then Ok bin_data else Error BinasciiError
  | this_ch :: rest =>
      if this_ch =? 61 then
        if 2 <=? quad_pos then
          if 4 <=? quad_pos + (pads + 1) then Ok bin_data
          else a2b_loop rest quad_pos leftchar (pads + 1) bin_data
        else a2b_loop rest quad_pos leftchar pads bin_data
      else
        let this_ch := table_a2b_base64 this_ch in
        if 64 <=? this_ch then a2b_loop rest quad_pos leftchar pads bin_data
        else if quad_pos =? 0 then
          a2b_loop rest 1 this_ch 0 bin_data
        else if quad_pos =? 1 then
          a2b_loop rest 2 (N.land this_ch 15) 0
            (bin_data ++
               [byte_of_N
                  (N.lor (N.shiftl leftchar 2) (N.shiftr this_ch 4) mod 256)])
        else if quad_pos =? 2 then
          a2b_loop rest 3 (N.land this_ch 3) 0
            (bin_data ++
               [byte_of_N
                  (N.lor (N.shiftl leftchar 4) (N.shiftr this_ch 2) mod 256)])
        else
          a2b_loop rest 0 0 0
            (bin_data ++
               [byte_of_N (N.lor (N.shiftl leftchar 6) this_ch mod 256)])
  end.

(** [base64.b64decode(s)] on a [str]: the string must be ASCII. *)
Definition b64decode (s : str) : result (list byte) exn :=
  if forallb (fun c => c <? 128) s then a2b_loop s 0 0 0 []
  else Error ValueError.

End Base64.
Import Base64.

(** ** The world: files and standard output *)

(** The files, what has been printed, and how the environment fails:
    [open_error w filename] is the exception that opening [filename] for
    writing raises, if any ([OSError] for a missing directory or a
    permission, [ValueError] for a name with a NUL character), and
    [print_error w line] is the exception that printing [line] raises, if
    any ([UnicodeEncodeError] when the output cannot encode it,
    [ValueError] when it is closed). *)
Record world := {
  files : gmap str (list byte);
  open_error : str -> option exn;
  print_error : str -> option exn;
  stdout : list str
}.

(** The file can be opened for writing. *)
Definition writable (w : world) (filename : str) : bool :=
  match open_error w filename with
  | None => true
  | Some _ => false
  end.

(** The world after one more line of output. *)
Definition printed (w : world) (line : str) : world :=
  {| files := files w; open_error := open_error w;
     print_error := print_error w; stdout := stdout w ++ [line] |}.

Definition M (A : Type) : Type := world -> result A exn * world.

Definition ret {A : Type} (a : A) : M A := fun w => (Ok a, w).

Definition bind {A B : Type} (m : M A) (k : A -> M B) : M B :=
  fun w =>
    match m w with
    | (Ok a, w') => k a w'
    | (Error e, w') => (Error e, w')
    end.

Notation "x <-- m ;; k" := (bind m (fun x => k))
  (at level 100, m at next level, right associativity).

Definition lift {A : Type} (r : result A exn) : M A := fun w => (r, w).

(** [try: body except Exception as e: handler]. *)
Definition try_except {A : Type} (body : M A) (handler : exn -> M A) : M A :=
  fun w =>
    match body w with
    | (Ok a, w') => (Ok a, w')
    | (Error e, w') => handler e w'
    end.

(** [print(line)]. *)
Definition print (line : str) : M unit :=
  fun w =>
    match print_error w line with
    | Some e => (Error e, w)
    | None => (Ok tt, printed w line)
    end.

(** [with open(filename, "wb") as f: f.write(data)]. *)
Definition write_file (filename : str) (data : list byte) : M unit :=
  fun w =>
    match open_error w filename with
    | Some e => (Error e, w)
    | None =>
        (Ok tt, {| files := <[filename := data]> (files w);
                   open_error := open_error w;
                   print_error := print_error w;
                   stdout := stdout w |})
    end.

(** [l[i]]. *)
Definition index {A : Type} (l : list A) (i : nat) : result A exn :=
  match nth_error l i with
  | Some a => Ok a
  | None => Error IndexError
  end.

(** ** The output packager *)

Definition buffer_to_data_uri (buf : list byte) : str :=
  py "data:image/png;base64," ++ decode (b64encode buf).

Definition save_data_uri_to_file (data_uri filename : str) : M unit :=
  if startswith (py "data:image/png;base64,") data_uri then
    base64_data <-- lift (index (split comma data_uri) 1) ;;
    image_data <-- lift (b64decode base64_data) ;;
    _ <-- write_file filename image_data ;;
    print (py "Slika spremljena: " ++ filename)
  else ret tt.

(** ** The symbol renderers *)

(** Options of the 1D barcode writer. *)
Record barcode_options := {
  module_width : Z;
  module_height : Z;
  quiet_zone : float;
  font_size : Z
}.

(** The third-party libraries the renderers call (pdf417, qrcode,
    python-barcode, and PIL's conversion and PNG writer).  Each call either
    returns or raises; [exn_str] is [str(e)]. *)
Class Libraries := {
  pdf417_codes : Type;
  qr_symbol : Type;
  barcode_class : Type;
  barcode_code : Type;
  raw_image : Type;
  (* pdf417.encode(data, columns, security_level) *)
  pdf417_encode : str -> Z -> Z -> result pdf417_codes exn;
  (* pdf417.render_image(codes, scale, ratio) *)
  pdf417_render_image : pdf417_codes -> Z -> float -> result raw_image exn;
  (* qrcode.QRCode(ERROR_CORRECT_M, box_size, border); add_data; make(fit=True) *)
  qrcode_make : Z -> Z -> str -> result qr_symbol exn;
  (* qr.make_image(fill_color="black", back_color="white") *)
  qrcode_make_image : qr_symbol -> result raw_image exn;
  (* barcode.get_barcode_class(name) *)
  get_barcode_class : str -> result barcode_class exn;
  (* cls(data, writer=ImageWriter()) *)
  barcode_new : barcode_class -> str -> result barcode_code exn;
  (* code.write(buf, options) *)
  barcode_write : barcode_code -> barcode_options -> result (list byte) exn;
  (* image.convert("RGB") *)
  convert_RGB : raw_image -> result image exn;
  (* image.save(buf, format="PNG") *)
  save_PNG : image -> result (list byte) exn;
  exn_str : exn -> str
}.

Definition s_caron : char := 353%N.   (* U+0161 *)

Section Renderers.

Context {L : Libraries}.

Definition get_pdf417 (data : str) (scale : Z) (ratio : float) : M str :=
  try_except
    (codes <-- lift (pdf417_encode data 9 2) ;;
     image <-- lift (pdf417_render_image codes scale ratio) ;;
     image <-- lift (convert_RGB image) ;;
     let image := auto_crop_white image in
     buf <-- lift (save_PNG image) ;;
     ret (buffer_to_data_uri buf))
    (fun e =>
       _ <-- print (py "PDF417 gre" ++ [s_caron] ++ py "ka: " ++ exn_str e) ;;
       ret []).

Definition get_hub30_pdf417 (doc : MockDocument) (scale : Z) (ratio : float)
    : M str :=
  data <-- lift (generate_hub30_payload doc) ;;
  get_pdf417 data scale ratio.

Definition get_barcode_image (data : str) (barcode_type : str)
    (module_width module_height : Z) : M str :=
  try_except
    (cls <-- lift (get_barcode_class barcode_type) ;;
     code <-- lift (barcode_new cls data) ;;
     let opts :=
       {| module_width := module_width;
          module_height := module_height;
          quiet_zone := 6.5%float;
          font_size := 10 |} in
     buf <-- lift (barcode_write code opts) ;;
     ret (buffer_to_data_uri buf))
    (fun e =>
       _ <-- print (py "Gre" ++ [s_caron] ++ py "ka pri generiranju barkoda: "
                      ++ exn_str e) ;;
       ret []).

Definition get_qr_code (data : str) (box_size border : Z) : M str :=
  try_except
    (qr <-- lift (qrcode_make box_size border data) ;;
     img <-- lift (qrcode_make_image qr) ;;
     img <-- lift (convert_RGB img) ;;
     let img := auto_crop_white img in
     buf <-- lift (save_PNG img) ;;
     ret (buffer_to_data_uri buf))
    (fun e =>
       _ <-- print (py "QR kod gre" ++ [s_caron] ++ py "ka: " ++ exn_str e) ;;
       ret []).

Definition get_bcd_qr (doc : MockDocument) (box_size : Z) : M str :=
  let bcd_data := generate_bcd_payload doc in
  get_qr_code bcd_data box_size 1.

End Renderers.

(** *** A small instance of the libraries

    Stand-ins with a data capacity, used to run the renderers: the encoders
    raise when the payload is longer than the capacity ([ValueError] for
    pdf417, [DataOverflowError] for qrcode) and the 1D barcode rejects
    characters outside ASCII; every symbol is drawn as one black pixel in a
    white frame, and the PNG stream is a fixed signature. *)

Definition framed_pixel : image :=
  {| width := 3; height := 3;
     rows := [ [white; white; white];
               [white; black; white];
               [white; white; white] ] |}.

Definition png_signature : list byte :=
  [ x89; x50; x4e; x47; x0d; x0a; x1a; x0a ].

#[local] Instance capped_libraries (capacity : nat) : Libraries := {|
  pdf417_codes := str;
  qr_symbol := str;
  barcode_class := str;
  barcode_code := str;
  raw_image := image;
  pdf417_encode data _ _ :=
    if length data <=? capacity then Ok data else Error ValueError;
  pdf417_render_image _ _ _ := Ok framed_pixel;
  qrcode_make _ _ data :=
    if length data <=? capacity then Ok data else Error DataOverflowError;
  qrcode_make_image _ := Ok framed_pixel;
  get_barcode_class kind :=
    if decide (kind = py "code128") then Ok kind
    else Error (LibraryError kind);
  barcode_new _ data :=
    if forallb (fun c => c <? 128)%N data then Ok data
    else Error (LibraryError data);
  barcode_write _ _ := Ok png_signature;
  convert_RGB im := Ok im;
  save_PNG _ := Ok png_signature;
  exn_str e :=
    match e with
    | ValueError => py "Data too long"
    | DataOverflowError => py "DataOverflowError"
    | LibraryError what => what
    | _ => py "error"
    end
|}.

(** The largest capacity of a QR symbol at error-correction level M:
    5596 characters (version 40, digits only; 3391 alphanumeric, 2331
    bytes).  With this capacity the stand-in for [qrcode] raises only on
    payloads that no QR symbol holds. *)
Definition qr_capacity_M : nat := N.to_nat 5596.

(** ["a" * 6000]. *)
Definition long_payload : str := repeat 97%N (N.to_nat 6000).

(** No file yet, nothing printed, and an environment in which every file
    can be opened and every line printed. *)
Definition empty_world : world :=
  {| files := ∅; open_error := fun _ => None; print_error := fun _ => None;
     stdout := [] |}.

(** ** Notions used in the proofs *)

(** Characters of a formatted number: digits, "-", "." and the letters of
    "inf" and "nan"; in particular no newline and no comma. *)
Definition amount_char (c : char) : Prop :=
  c <> newline /\ c <> comma.

(** The number a string of decimal digits writes. *)
Definition number (digits : str) : Z :=
  fold_left (fun a c => 10 * a + (Z.of_N c - 48))%Z digits 0%Z.

(** The coordinates at which an image is not white. *)
Definition content (img : image) : list (nat * nat) :=
  List.filter
    (fun c => nonzero (channel_difference (pixel_at img (fst c) (snd c)) white))
    (coords (width img) (height img)).

(** [f] holds of every number below [n]; used to check the bit identities
    of Base64 over all bytes. *)
Definition all_below (n : nat) (f : N -> bool) : bool :=
  forallb f (map N.of_nat (seq 0 n)).

(** The outcome of a handler that prints a line and returns "": the empty
    string and the line printed, or the exception of [print] when printing
    the line raises. *)
Definition swallowed (w : world) (line : str) : result str exn * world :=
  match print_error w line with
  | None => (Ok [], printed w line)
  | Some e => (Error e, w)
  end.

Section Chains.

Context {L : Libraries}.

(** The bodies of the three [try] blocks, as the chain of library calls. *)
Definition pdf417_chain (data : str) (scale : Z) (ratio : float)
    : result str exn :=
  codes <- pdf417_encode data 9 2 ;;
  image <- pdf417_render_image codes scale ratio ;;
  image <- convert_RGB image ;;
  buf <- save_PNG (auto_crop_white image) ;;
  Ok (buffer_to_data_uri buf).

Definition qr_chain (data : str) (box_size border : Z) : result str exn :=
  qr <- qrcode_make box_size border data ;;
  img <- qrcode_make_image qr ;;
  img <- convert_RGB img ;;
  buf <- save_PNG (auto_crop_white img) ;;
  Ok (buffer_to_data_uri buf).

Definition barcode_chain (data barcode_type : str)
    (module_width module_height : Z) : result str exn :=
  cls <- get_barcode_class barcode_type ;;
  code <- barcode_new cls data ;;
  buf <- barcode_write code
           {| module_width := module_width; module_height := module_height;
              quiet_zone := 6.5%float; font_size := 10 |} ;;
  Ok (buffer_to_data_uri buf).

End Chains.

(** ** The payment details of the invoice module ([PaymentDetails]) *)

Module CRM.

Record PaymentDetails := {
  iban : str;
  model : str;
  reference_number : str;
  amount : float;
  receiver_name : str;
  purpose : str
}.

Definition generate_hub3_string (self : PaymentDetails) : str :=
  let hub3_data :=
    py "HRVHUB30" ++ [newline]
      ++ py "HRK" ++ [newline]
      ++ format_2f (amount self) ++ [newline]
      ++ receiver_name self ++ [newline]
      ++ iban self ++ [newline]
      ++ model self ++ [newline]
      ++ reference_number self ++ [newline]
      ++ [newline]
      ++ [newline]
      ++ [newline]
      ++ purpose self ++ [newline] in
  hub3_data.

End CRM.

(** ** Lemmas on strings *)

Section StrLemmas.

Lemma split_nonempty sep s : split sep s <> [].
Proof.
  destruct s as [|c s]; simpl; [discriminate|].
  destruct (N.eqb c sep); [discriminate|].
  destruct (split sep s); discriminate.
Qed.

Lemma split_length_pos sep s : 1 <= length (split sep s).
Proof.
  pose proof (split_nonempty sep s) as H.
  destruct (split sep s); [congruence | simpl; lia].
Qed.

Lemma join_cons sep x y l :
  join sep (x :: y :: l) = x ++ sep ++ join sep (y :: l).
Proof. reflexivity. Qed.

(** Joining the segments back with the separator restores the string. *)
Lemma join_split sep s : join [sep] (split sep s) = s.
Proof.
  induction s as [|c s IH]; simpl; [reflexivity|].
  destruct (N.eqb_spec c sep) as [->|Hne].
  - pose proof (split_nonempty sep s) as Hn.
    destruct (split sep s) as [|p ps] eqn:E; [congruence|].
    simpl in *. now rewrite IH.
  - pose proof (split_nonempty sep s) as Hn.
    destruct (split sep s) as [|p ps] eqn:E; [congruence|].
    destruct ps as [|q qs]; simpl in *; now rewrite <- IH.
Qed.

Lemma contains_false_Forall c s :
  contains c s = false <-> Forall (fun x => x <> c) s.
Proof.
  unfold contains. induction s as [|x s IH]; simpl.
  - split; [constructor | reflexivity].
  - rewrite orb_false_iff, IH. split.
    + intros [H1 H2]. constructor; [|exact H2].
      intros ->. rewrite N.eqb_refl in H1. discriminate.
    + intros H. inversion H; subst. split; [|assumption].
      apply N.eqb_neq. congruence.
Qed.

Lemma contains_app c s t :
  contains c (s ++ t) = contains c s || contains c t.
Proof. unfold contains. apply existsb_app. Qed.

(** A string without the separator is one segment. *)
Lemma split_no_sep sep s : contains sep s = false -> split sep s = [s].
Proof.
  induction s as [|c s IH]; simpl; [reflexivity|].
  unfold contains in *. simpl. rewrite orb_false_iff. intros [H1 H2].
  rewrite N.eqb_sym, H1. now rewrite IH.
Qed.

(** Splitting [s ++ sep ++ t] where [s] has no separator. *)
Lemma split_app_sep sep s t :
  contains sep s = false ->
  split sep (s ++ sep :: t) = s :: split sep t.
Proof.
  induction s as [|c s IH]; simpl.
  - intros _. now rewrite N.eqb_refl.
  - unfold contains in *. simpl. rewrite orb_false_iff. intros [H1 H2].
    rewrite N.eqb_sym, H1. now rewrite IH.
Qed.

(** Joining segments that hold no separator and splitting again gives the
    segments back. *)
Lemma split_join sep l :
  l <> [] ->
  Forall (fun s => contains sep s = false) l ->
  split sep (join [sep] l) = l.
Proof.
  induction l as [|x l IH]; [congruence|].
  intros _ H. inversion H as [|? ? Hx Hl]; subst.
  destruct l as [|y l].
  - simpl. now apply split_no_sep.
  - rewrite join_cons. simpl app.
    rewrite split_app_sep by assumption.
    f_equal. apply IH; [discriminate | assumption].
Qed.

Lemma replace_absent old new s :
  contains old s = false -> replace old new s = s.
Proof.
  unfold replace, contains. induction s as [|c s IH]; simpl; [reflexivity|].
  rewrite orb_false_iff. intros [H1 H2].
  rewrite N.eqb_sym, H1. simpl. now rewrite IH.
Qed.

Lemma startswith_app p s : startswith p (p ++ s) = true.
Proof.
  induction p as [|a p IH]; simpl; [reflexivity|].
  now rewrite N.eqb_refl, IH.
Qed.

Lemma join_cons_cases sep x l :
  join sep (x :: l) = x ++ match l with [] => [] | _ :: _ => sep ++ join sep l end.
Proof. destruct l; [simpl; now rewrite app_nil_r | reflexivity]. Qed.

(** In a joined string, a segment that follows segments without the
    separator, and holds none itself, is found again at its index. *)
Lemma nth_split_join sep (pre : list str) (x : str) (post : list str) :
  Forall (fun s => contains sep s = false) pre ->
  contains sep x = false ->
  nth (length pre) (split sep (join [sep] (pre ++ x :: post))) [] = x.
Proof.
  intros Hpre Hx. induction Hpre as [|p pre Hp Hpre IH].
  - cbn [app length]. rewrite join_cons_cases.
    destruct post as [|y post].
    + rewrite app_nil_r, split_no_sep by exact Hx. reflexivity.
    + cbn [app]. rewrite split_app_sep by exact Hx. reflexivity.
  - cbn [app length]. rewrite join_cons_cases.
    destruct (pre ++ x :: post) as [|y rest] eqn:E;
      [destruct pre; discriminate|].
    cbn [app]. rewrite split_app_sep by exact Hp. cbn [nth]. exact IH.
Qed.

End StrLemmas.

(** ** Reference number: the three cases *)

(** C4. [extract_reference_number] is a total function of the identifier
    alone.  With the identifier split on "-": four or more segments give
    segments 1, 2 and 3 joined by "-"; exactly three segments give the last
    three joined by "-", which is the identifier itself; fewer give the
    first ten characters, which is the whole identifier when it is no longer
    than ten characters.  The three identifiers of the specification map to
    "SINV-2024-00001", to "005-2024-00123" and to "AB". *)
Theorem extract_reference_number_cases (doc_name : str) :
  let parts := split dash doc_name in
  (4 <= length parts ->
     extract_reference_number doc_name
     = join (py "-") [nth 1 parts []; nth 2 parts []; nth 3 parts []])
  /\ (3 <= length parts < 4 ->
     extract_reference_number doc_name
     = join (py "-") (drop (length parts - 3) parts)
     /\ extract_reference_number doc_name = doc_name)
  /\ (length parts < 3 ->
     extract_reference_number doc_name = take 10 doc_name
     /\ (length doc_name <= 10 -> extract_reference_number doc_name = doc_name))
  /\ extract_reference_number (py "ACC-SINV-2024-00001") = py "SINV-2024-00001"
  /\ extract_reference_number (py "005-2024-00123") = py "005-2024-00123"
  /\ extract_reference_number (py "AB") = py "AB".
Proof.
  intros parts. unfold extract_reference_number. fold parts.
  repeat split; try reflexivity.
  - intros H. apply Nat.leb_le in H. rewrite H. reflexivity.
  - destruct H as [H3 H4].
    apply Nat.leb_gt in H4. rewrite H4.
    apply Nat.leb_le in H3. now rewrite H3.
  - destruct H as [H3 H4].
    assert (length parts = 3) as E by lia.
    apply Nat.leb_gt in H4. rewrite H4.
    apply Nat.leb_le in H3. rewrite H3.
    rewrite E. simpl. unfold parts. apply join_split.
  - assert ((4 <=? length parts) = false) as -> by (apply Nat.leb_gt; lia).
    assert ((3 <=? length parts) = false) as -> by (apply Nat.leb_gt; lia).
    reflexivity.
  - intros Hlen.
    assert ((4 <=? length parts) = false) as -> by (apply Nat.leb_gt; lia).
    assert ((3 <=? length parts) = false) as -> by (apply Nat.leb_gt; lia).
    apply firstn_all2. exact Hlen.
Qed.

Lemma extract_reference_number_cases_witness :
  extract_reference_number (py "X-SINV-2024-00001-B")
  = join (py "-") [py "SINV"; py "2024"; py "00001"].
Proof.
  apply (proj1 (extract_reference_number_cases (py "X-SINV-2024-00001-B"))).
  vm_compute. lia.
Defined.

(** ** Lemmas on the number formats *)

Section NumLemmas.

Local Open Scope Z_scope.

Lemma digit_range d : 0 <= d < 10 -> (48 <= digit d <= 57)%N.
Proof. unfold digit. lia. Qed.

Lemma digit_amount_char d : 0 <= d < 10 -> amount_char (digit d).
Proof.
  intros H. pose proof (digit_range d H).
  unfold amount_char, newline, comma. lia.
Qed.

Lemma digits_aux_Forall (P : char -> Prop) fuel n acc :
  (forall d, 0 <= d < 10 -> P (digit d)) ->
  Forall P acc -> Forall P (digits_aux fuel n acc).
Proof.
  intros HP. revert n acc.
  induction fuel as [|f IH]; intros n acc Hacc; simpl; [exact Hacc|].
  assert (Forall P (digit (n mod 10) :: acc)) as H.
  { constructor; [|exact Hacc]. apply HP. apply Z.mod_pos_bound. lia. }
  destruct (n <? 10); [exact H | now apply IH].
Qed.

Lemma decimal_Forall (P : char -> Prop) n :
  (forall d, 0 <= d < 10 -> P (digit d)) -> Forall P (decimal n).
Proof. intros HP. apply digits_aux_Forall; [exact HP | constructor]. Qed.

Lemma digits_aux_nonempty fuel n acc :
  digits_aux (S fuel) n acc <> [].
Proof.
  revert n acc. induction fuel as [|f IH]; intros n acc.
  - simpl. destruct (n <? 10); discriminate.
  - change (digits_aux (S (S f)) n acc)
      with (if n <? 10 then digit (n mod 10) :: acc
            else digits_aux (S f) (n / 10) (digit (n mod 10) :: acc)).
    destruct (n <? 10); [discriminate | apply IH].
Qed.

Lemma decimal_nonempty n : decimal n <> [].
Proof. apply digits_aux_nonempty. Qed.

Lemma Forall_amount_char_contains s :
  Forall amount_char s ->
  contains newline s = false /\ contains comma s = false.
Proof.
  intros H. split; apply contains_false_Forall;
    eapply Forall_impl; try exact H; intros c [? ?]; assumption.
Qed.

Lemma format_015d_amount_chars n : Forall amount_char (format_015d n).
Proof.
  unfold format_015d.
  apply Forall_app; split; [|apply Forall_app; split].
  - destruct (n <? 0); [|constructor].
    repeat constructor; unfold amount_char, newline, comma; vm_compute; congruence.
  - apply List.Forall_forall. intros c Hc. apply repeat_spec in Hc. subst c.
    apply digit_amount_char. lia.
  - apply decimal_Forall. exact digit_amount_char.
Qed.

Lemma sign_amount_chars (s : bool) :
  Forall amount_char (if s then py "-" else []).
Proof.
  destruct s; repeat constructor; vm_compute; congruence.
Qed.

Lemma format_2f_amount_chars x : Forall amount_char (format_2f x).
Proof.
  assert (forall s num den,
    Forall amount_char
      ((if s : bool then py "-" else [])
       ++ decimal (round_half_even (100 * num) den / 100) ++ py "."
       ++ [digit (round_half_even (100 * num) den mod 100 / 10);
           digit (round_half_even (100 * num) den mod 10)])) as Hfin.
  { intros s num den.
    apply Forall_app; split; [apply sign_amount_chars|].
    apply Forall_app; split; [apply decimal_Forall, digit_amount_char|].
    apply Forall_app; split; [repeat constructor; vm_compute; congruence|].
    constructor; [|constructor; [|constructor]]; apply digit_amount_char.
    - pose proof (Z.mod_pos_bound (round_half_even (100 * num) den) 100 ltac:(lia)).
      split; [apply Z.div_pos; lia | apply Z.div_lt_upper_bound; lia].
    - apply Z.mod_pos_bound. lia. }
  assert (Forall amount_char (py "nan")) as Hnan
    by (repeat constructor; vm_compute; congruence).
  unfold format_2f.
  destruct (Prim2SF x) as [s|s| |s m e].
  - destruct (exact x) as [[s' [num den]]|]; [apply Hfin | exact Hnan].
  - apply Forall_app; split; [apply sign_amount_chars|].
    repeat constructor; vm_compute; congruence.
  - exact Hnan.
  - destruct (exact x) as [[s' [num den]]|]; [apply Hfin | exact Hnan].
Qed.

(** [round_half_even] is within one half of the fraction it rounds. *)
Lemma round_half_even_nearest num den :
  0 < den ->
  Z.abs (2 * (num - round_half_even num den * den)) <= den.
Proof.
  intros Hden. unfold round_half_even.
  pose proof (Z.div_mod num den ltac:(lia)) as E.
  pose proof (Z.mod_pos_bound num den Hden) as B.
  set (q := num / den) in *. set (r := num mod den) in *.
  destruct (Z.ltb_spec (2 * r) den); [|destruct (Z.ltb_spec den (2 * r))];
    [| |destruct (Z.even q)]; nia.
Qed.

Lemma round_half_even_nonneg num den :
  0 <= num -> 0 < den -> 0 <= round_half_even num den.
Proof.
  intros Hn Hd. unfold round_half_even.
  assert (0 <= num / den) by (apply Z.div_pos; lia).
  destruct (2 * (num mod den) <? den); [lia|].
  destruct (den <? 2 * (num mod den)); [lia|].
  destruct (Z.even (num / den)); lia.
Qed.

(** The fraction [exact] returns is a non-negative numerator over a positive
    denominator, with the sign bit. *)
Lemma exact_Some x s num den :
  exact x = Some (s, (num, den)) ->
  s = signbit x /\ 0 <= num /\ 0 < den.
Proof.
  unfold exact, signbit.
  destruct (Prim2SF x) as [s0|s0| |s0 m e]; try discriminate.
  - intros [= <- <- <-]. split; [reflexivity | lia].
  - destruct (Z.leb_spec 0 e); intros [= <- <- <-].
    + split; [reflexivity|]. split; [|lia].
      apply Z.mul_nonneg_nonneg; [lia|]. apply Z.pow_nonneg. lia.
    + split; [reflexivity|]. split; [lia|]. apply Z.pow_pos_nonneg; lia.
Qed.

Lemma is_finite_exact x :
  is_finite x = true -> exists num den, exact x = Some (signbit x, (num, den)).
Proof.
  unfold is_finite. destruct (exact x) as [[s [num den]]|] eqn:E; [|discriminate].
  intros _. exists num, den. apply exact_Some in E as [-> _]. reflexivity.
Qed.

(** On a finite float [.2f] is the sign, the integer part, "." and two
    digits. *)
Lemma format_2f_finite x s num den :
  exact x = Some (s, (num, den)) ->
  format_2f x =
    (if s then py "-" else [])
      ++ decimal (round_half_even (100 * num) den / 100) ++ py "."
      ++ [digit (round_half_even (100 * num) den mod 100 / 10);
          digit (round_half_even (100 * num) den mod 10)].
Proof.
  intros E. unfold format_2f. rewrite E.
  unfold exact in E.
  destruct (Prim2SF x) as [s0|s0| |s0 m e]; try discriminate; reflexivity.
Qed.

Lemma int_of_float_finite x :
  is_finite x = true -> exists n, int_of_float x = Ok n.
Proof.
  unfold is_finite, int_of_float.
  destruct (exact x) as [[s [num den]]|] eqn:E; [|discriminate].
  intros _. unfold exact in E.
  destruct (Prim2SF x) as [s0|s0| |s0 m e]; try discriminate; eauto.
Qed.

(** The digits of [decimal n] read back as [n]. *)
Lemma number_app k d :
  number (k ++ [d]) = 10 * number k + (Z.of_N d - 48).
Proof. unfold number. rewrite fold_left_app. reflexivity. Qed.

Lemma number_digit d : 0 <= d < 10 -> Z.of_N (digit d) - 48 = d.
Proof. unfold digit. lia. Qed.

Lemma digits_aux_number (fuel : nat) :
  forall n acc,
    0 <= n < 2 ^ Z.of_nat fuel -> (1 <= fuel)%nat ->
    exists k, digits_aux fuel n acc = k ++ acc /\ number k = n.
Proof.
  induction fuel as [|f IH]; intros n acc Hn Hf; [lia|].
  cbn [digits_aux].
  destruct (Z.ltb_spec n 10) as [Hlt|Hge].
  - exists [digit (n mod 10)]. split; [reflexivity|].
    unfold number. cbn [fold_left].
    rewrite number_digit by (apply Z.mod_pos_bound; lia).
    rewrite Z.mod_small by lia. lia.
  - assert (2 <= f)%nat as Hf2.
    { destruct f as [|[|f]]; [| |lia].
      - change (2 ^ Z.of_nat 1) with 2 in Hn. lia.
      - change (2 ^ Z.of_nat 2) with 4 in Hn. lia. }
    assert (0 <= n / 10 < 2 ^ Z.of_nat f) as Hq.
    { split; [apply Z.div_pos; lia|].
      apply Z.div_lt_upper_bound; [lia|].
      rewrite Nat2Z.inj_succ, Z.pow_succ_r in Hn by lia. lia. }
    destruct (IH (n / 10) (digit (n mod 10) :: acc) Hq ltac:(lia))
      as (k & -> & Hk).
    exists (k ++ [digit (n mod 10)]). split.
    + rewrite <- app_assoc. reflexivity.
    + rewrite number_app, Hk.
      rewrite number_digit by (apply Z.mod_pos_bound; lia).
      pose proof (Z.div_mod n 10 ltac:(lia)). lia.
Qed.

Lemma decimal_number n : 0 <= n -> number (decimal n) = n.
Proof.
  intros Hn. unfold decimal.
  destruct (digits_aux_number (S (Z.to_nat (Z.log2 n))) n []) as (k & E & Hk).
  - split; [exact Hn|].
    destruct (Z.eq_dec n 0) as [->|Hne]; [reflexivity|].
    rewrite Nat2Z.inj_succ, Z2Nat.id by apply Z.log2_nonneg.
    apply Z.log2_spec. lia.
  - lia.
  - rewrite E, app_nil_r. exact Hk.
Qed.

End NumLemmas.

(** ** The payloads *)

Lemma label_no_newline doc :
  contains newline (get_document_type_label doc) = false.
Proof.
  unfold get_document_type_label. simpl.
  repeat (case_decide; [reflexivity|]). reflexivity.
Qed.

(** Closes [contains newline s = false] for the fields of the payloads. *)
Ltac no_newline :=
  match goal with
  | |- contains newline (_ ++ _) = false =>
      rewrite contains_app; apply orb_false_iff; split; no_newline
  | |- contains newline (format_015d _) = false =>
      apply Forall_amount_char_contains, format_015d_amount_chars
  | |- contains newline (format_2f _) = false =>
      apply Forall_amount_char_contains, format_2f_amount_chars
  | |- contains newline (get_document_type_label _) = false =>
      apply label_no_newline
  | |- _ => first [ assumption | reflexivity ]
  end.

(** C1. The code truncates where the claim rounds.  For the amount 1.15 the
    product [1.15 * 100] is the float just below 115, [int] cuts it to 114
    and the third HUB30 field is "000000000000114", while [round] of the same
    product is 115 ("000000000000115") and the BCD payload of the same
    document says "EUR1.15".  The amount 1500.00 of the claim's example gives
    "000000000150000". *)
Theorem hub30_amount_truncates :
  let doc := with_total default_document 1.15%float in
  (lines <- hub30_lines doc ;; Ok (nth 2 lines [])) = Ok (py "000000000000114")
  /\ (cents <- round (PrimFloat.mul 1.15%float 100%float) ;;
      Ok (format_015d cents)) = Ok (py "000000000000115")
  /\ nth 7 (bcd_lines doc) [] = py "EUR1.15"
  /\ (lines <- hub30_lines default_document ;; Ok (nth 2 lines []))
     = Ok (py "000000000150000").
Proof. vm_compute. repeat split; reflexivity. Qed.

(** C2 (as amended). For every document view whose amount times 100 is a
    finite number and whose payee name and reference number hold no newline,
    [generate_hub30_payload] returns a string that splits on newline into
    exactly these 15 fields, in this order. *)
Theorem hub30_payload_fields (doc : MockDocument) :
  is_finite (PrimFloat.mul (grand_total doc) 100%float) = true ->
  contains newline (company doc) = false ->
  contains newline (extract_reference_number (name doc)) = false ->
  exists cents payload,
    int_of_float (PrimFloat.mul (grand_total doc) 100%float) = Ok cents
    /\ generate_hub30_payload doc = Ok payload
    /\ split newline payload =
         [ py "HRVHUB30"; py "EUR"; format_015d cents; []; []; [];
           company doc; py "Racka 1C";
           py "10250 Je" ++ [z_caron] ++ py "dovec";
           py "HR9123600001503417252"; py "HR00";
           extract_reference_number (name doc); [];
           py "Racun br. " ++ extract_reference_number (name doc); [] ]
    /\ length (split newline payload) = 15.
Proof.
  intros Hfin Hcompany Href.
  destruct (int_of_float_finite _ Hfin) as [cents Hcents].
  exists cents. eexists. split; [exact Hcents|].
  unfold generate_hub30_payload, hub30_lines. rewrite Hcents. cbv beta iota delta [bind_result].
  split; [reflexivity|].
  assert (forall l : list str, l <> [] ->
            Forall (fun s => contains newline s = false) l ->
            split newline (join [newline] l) = l) as Hsplit
    by (intros l; apply split_join).
  rewrite Hsplit.
  - split; reflexivity.
  - discriminate.
  - repeat (constructor; [no_newline|]). constructor.
Qed.

Lemma hub30_payload_fields_witness :
  exists cents payload,
    int_of_float (PrimFloat.mul (grand_total default_document) 100%float) = Ok cents
    /\ generate_hub30_payload default_document = Ok payload
    /\ split newline payload =
         [ py "HRVHUB30"; py "EUR"; format_015d cents; []; []; [];
           company default_document; py "Racka 1C";
           py "10250 Je" ++ [z_caron] ++ py "dovec";
           py "HR9123600001503417252"; py "HR00";
           extract_reference_number (name default_document); [];
           py "Racun br. " ++ extract_reference_number (name default_document); [] ]
    /\ length (split newline payload) = 15.
Proof.
  apply (hub30_payload_fields default_document); vm_compute; reflexivity.
Defined.

(** C2, the claim as stated fails: a payee name with a newline in it gives
    16 fields, and the seventh is no longer the payee name; and for the
    amount 1e308 the product overflows to infinity, [int] raises and no
    string is returned. *)
Lemma hub30_newline_in_company :
  let doc := with_company default_document (py "A" ++ [newline] ++ py "B") in
  (exists payload,
     generate_hub30_payload doc = Ok payload
     /\ length (split newline payload) = 16
     /\ nth 6 (split newline payload) [] <> company doc)
  /\ generate_hub30_payload (with_total default_document 1e308%float)
     = Error OverflowError.
Proof.
  split; [|vm_compute; reflexivity].
  eexists. split; [vm_compute; reflexivity|].
  vm_compute. split; [reflexivity | discriminate].
Qed.

(** C3 (as amended). For every document view whose BIC, payee name and
    reference number hold no newline, [generate_bcd_payload] returns a string
    that splits on newline into exactly these 12 fields, in this order. *)
Theorem bcd_payload_fields (doc : MockDocument) :
  contains newline (bic doc) = false ->
  contains newline (company doc) = false ->
  contains newline (extract_reference_number (name doc)) = false ->
  split newline (generate_bcd_payload doc) =
    [ py "BCD"; py "002"; py "1"; py "SCT";
      bic doc; company doc; py "HR9123600001503417252";
      py "EUR" ++ format_2f (grand_total doc);
      [];
      extract_reference_number (name doc);
      [];
      get_document_type_label doc ++ py " "
        ++ extract_reference_number (name doc) ]
  /\ length (split newline (generate_bcd_payload doc)) = 12.
Proof.
  intros Hbic Hcompany Href.
  assert (contains comma (py "EUR" ++ format_2f (grand_total doc)) = false) as Hc.
  { rewrite contains_app. apply orb_false_iff. split; [reflexivity|].
    apply Forall_amount_char_contains, format_2f_amount_chars. }
  unfold generate_bcd_payload, bcd_lines.
  rewrite (replace_absent _ _ _ Hc).
  assert (forall l : list str, l <> [] ->
            Forall (fun s => contains newline s = false) l ->
            split newline (join [newline] l) = l) as Hsplit
    by (intros l; apply split_join).
  rewrite Hsplit.
  - split; reflexivity.
  - discriminate.
  - repeat (constructor; [no_newline|]). constructor.
Qed.

Lemma bcd_payload_fields_witness :
  length (split newline (generate_bcd_payload default_document)) = 12.
Proof.
  apply (bcd_payload_fields default_document); vm_compute; reflexivity.
Defined.

(** C3, the claim as stated fails: a payee name with a newline in it gives
    13 fields, and the seventh is no longer the payee IBAN. *)
Lemma bcd_newline_in_company :
  let doc := with_company default_document (py "A" ++ [newline] ++ py "B") in
  length (split newline (generate_bcd_payload doc)) = 13
  /\ nth 6 (split newline (generate_bcd_payload doc)) []
     <> get_iban_by_department doc.
Proof. vm_compute. split; [reflexivity | discriminate]. Qed.

(** The amount element of the BCD lines, for a finite amount. *)
Lemma bcd_lines_amount (doc : MockDocument) :
  is_finite (grand_total doc) = true ->
  exists n num den : Z,
    nth 7 (bcd_lines doc) [] =
      py "EUR" ++ (if signbit (grand_total doc) then py "-" else [])
        ++ decimal (n / 100) ++ [dot; digit (n mod 100 / 10); digit (n mod 10)]
    /\ number (decimal (n / 100)) = (n / 100)%Z
    /\ Forall (fun c => (48 <= c <= 57)%N)
         (decimal (n / 100) ++ [digit (n mod 100 / 10); digit (n mod 10)])
    /\ contains comma (nth 7 (bcd_lines doc) []) = false
    /\ exact (grand_total doc) = Some (signbit (grand_total doc), (num, den))
    /\ (0 < den /\ 0 <= n /\ Z.abs (2 * (100 * num - n * den)) <= den)%Z.
Proof.
  intros Hfin.
  destruct (is_finite_exact _ Hfin) as (num & den & E).
  destruct (exact_Some _ _ _ _ E) as (_ & Hnum & Hden).
  exists (round_half_even (100 * num) den), num, den.
  assert (contains comma (py "EUR" ++ format_2f (grand_total doc)) = false) as Hc.
  { rewrite contains_app. apply orb_false_iff. split; [reflexivity|].
    apply Forall_amount_char_contains, format_2f_amount_chars. }
  assert (nth 7 (bcd_lines doc) [] = py "EUR" ++ format_2f (grand_total doc)) as Hfield.
  { unfold bcd_lines. cbn [nth]. apply replace_absent. exact Hc. }
  rewrite Hfield.
  split; [|split; [|split; [|split; [|split]]]].
  - rewrite (format_2f_finite _ _ _ _ E). reflexivity.
  - apply decimal_number. apply Z.div_pos; [|lia].
    apply round_half_even_nonneg; lia.
  - apply Forall_app; split.
    + apply decimal_Forall. exact digit_range.
    + constructor; [|constructor; [|constructor]]; apply digit_range.
      * pose proof (Z.mod_pos_bound (round_half_even (100 * num) den) 100 ltac:(lia)).
        split; [apply Z.div_pos; lia | apply Z.div_lt_upper_bound; lia].
      * apply Z.mod_pos_bound. lia.
  - exact Hc.
  - exact E.
  - split; [exact Hden|]. split.
    + apply round_half_even_nonneg; lia.
    + apply round_half_even_nearest. exact Hden.
Qed.

(** The fields of the returned strings at the positions of the payee IBAN
    and of the amount, when the fields before them hold no newline. *)
Lemma bcd_payload_field_6 (doc : MockDocument) :
  contains newline (bic doc) = false ->
  contains newline (company doc) = false ->
  nth 6 (split newline (generate_bcd_payload doc)) []
  = nth 6 (bcd_lines doc) [].
Proof.
  intros Hbic Hcompany. unfold generate_bcd_payload, bcd_lines.
  apply (nth_split_join newline
           [py "BCD"; py "002"; py "1"; py "SCT"; bic doc; company doc]).
  - repeat (constructor; [no_newline|]). constructor.
  - reflexivity.
Qed.

Lemma bcd_payload_field_7 (doc : MockDocument) :
  contains newline (bic doc) = false ->
  contains newline (company doc) = false ->
  nth 7 (split newline (generate_bcd_payload doc)) []
  = nth 7 (bcd_lines doc) [].
Proof.
  intros Hbic Hcompany.
  assert (contains comma (py "EUR" ++ format_2f (grand_total doc)) = false) as Hc.
  { rewrite contains_app. apply orb_false_iff. split; [reflexivity|].
    apply Forall_amount_char_contains, format_2f_amount_chars. }
  unfold generate_bcd_payload, bcd_lines.
  apply (nth_split_join newline
           [py "BCD"; py "002"; py "1"; py "SCT"; bic doc; company doc;
            get_iban_by_department doc]).
  - repeat (constructor; [no_newline|]). constructor.
  - rewrite (replace_absent _ _ _ Hc). cbn [nth]. no_newline.
Qed.

(** C9 (as amended). For every document view with a finite amount whose
    BIC and payee name hold no newline, the eighth field of the string that
    [generate_bcd_payload] returns is "EUR", then "-" exactly when the sign
    bit of the amount is set (never for a positive amount or for +0.0), then
    the decimal digits of the integer part, ".", and exactly two digits; it
    holds no ","; and the number written, [n] hundredths, is within one half
    of the amount times 100.  The amount 2500.0 gives "EUR2500.00". *)
Theorem bcd_amount_two_decimals (doc : MockDocument) :
  is_finite (grand_total doc) = true ->
  contains newline (bic doc) = false ->
  contains newline (company doc) = false ->
  exists n num den : Z,
    nth 7 (split newline (generate_bcd_payload doc)) [] =
      py "EUR" ++ (if signbit (grand_total doc) then py "-" else [])
        ++ decimal (n / 100) ++ [dot; digit (n mod 100 / 10); digit (n mod 10)]
    /\ number (decimal (n / 100)) = (n / 100)%Z
    /\ Forall (fun c => (48 <= c <= 57)%N)
         (decimal (n / 100) ++ [digit (n mod 100 / 10); digit (n mod 10)])
    /\ contains comma (nth 7 (split newline (generate_bcd_payload doc)) [])
       = false
    /\ exact (grand_total doc) = Some (signbit (grand_total doc), (num, den))
    /\ (0 < den /\ 0 <= n /\ Z.abs (2 * (100 * num - n * den)) <= den)%Z
    /\ nth 7 (split newline (generate_bcd_payload (with_total doc 2500%float)))
         [] = py "EUR2500.00".
Proof.
  intros Hfin Hbic Hcompany.
  destruct (bcd_lines_amount doc Hfin)
    as (n & num & den & Hfield & Hnum & Hdigits & Hcomma & Hexact & Hnear).
  exists n, num, den.
  rewrite (bcd_payload_field_7 doc Hbic Hcompany).
  repeat (split; [assumption|]).
  rewrite (bcd_payload_field_7 (with_total doc 2500%float) Hbic Hcompany).
  vm_compute. reflexivity.
Qed.

Lemma bcd_amount_two_decimals_witness :
  exists n num den : Z,
    nth 7 (split newline (generate_bcd_payload default_document)) [] =
      py "EUR" ++ (if signbit (grand_total default_document) then py "-" else [])
        ++ decimal (n / 100) ++ [dot; digit (n mod 100 / 10); digit (n mod 10)]
    /\ number (decimal (n / 100)) = (n / 100)%Z
    /\ Forall (fun c => (48 <= c <= 57)%N)
         (decimal (n / 100) ++ [digit (n mod 100 / 10); digit (n mod 10)])
    /\ contains comma
         (nth 7 (split newline (generate_bcd_payload default_document)) [])
       = false
    /\ exact (grand_total default_document)
       = Some (signbit (grand_total default_document), (num, den))
    /\ (0 < den /\ 0 <= n /\ Z.abs (2 * (100 * num - n * den)) <= den)%Z
    /\ nth 7 (split newline
                (generate_bcd_payload (with_total default_document 2500%float)))
         [] = py "EUR2500.00".
Proof.
  apply (bcd_amount_two_decimals default_document); vm_compute; reflexivity.
Defined.

(** C9, the claim as stated fails: infinity is a non-negative amount
    ([0 <= inf]), and the amount field of its BCD payload is "EURinf", with
    no decimal digits at all; and with a newline in the payee name the
    eighth field of the returned string is not the amount but the IBAN. *)
Lemma bcd_amount_of_infinity :
  PrimFloat.leb 0%float infinity = true
  /\ nth 7 (split newline
              (generate_bcd_payload (with_total default_document infinity))) []
     = py "EURinf"
  /\ nth 7 (split newline
              (generate_bcd_payload
                 (with_company default_document
                    (py "A" ++ [newline] ++ py "B")))) []
     = py "HR9123600001503417252".
Proof.
  split; [vm_compute; reflexivity|]. split; vm_compute; reflexivity.
Qed.

(** C10 (as amended). [get_iban_by_department] returns
    "HR9123600001503417252" for every document view, whatever its
    department and its own [iban].  For every document view whose BIC and
    payee name hold no newline, this constant is the seventh field of the
    string that [generate_bcd_payload] returns; and for every document view
    whose payee name holds no newline and whose amount times 100 is finite,
    [generate_hub30_payload] returns a string whose tenth field is this
    constant. *)
Theorem payee_iban_constant (doc : MockDocument) :
  (forall other : MockDocument,
     get_iban_by_department other = py "HR9123600001503417252")
  /\ (contains newline (bic doc) = false ->
      contains newline (company doc) = false ->
      nth 6 (split newline (generate_bcd_payload doc)) []
      = py "HR9123600001503417252")
  /\ (contains newline (company doc) = false ->
      is_finite (PrimFloat.mul (grand_total doc) 100%float) = true ->
      exists payload,
        generate_hub30_payload doc = Ok payload
        /\ nth 9 (split newline payload) [] = py "HR9123600001503417252").
Proof.
  split; [reflexivity|]. split.
  - intros Hbic Hcompany.
    rewrite (bcd_payload_field_6 doc Hbic Hcompany). reflexivity.
  - intros Hcompany Hfin.
    destruct (int_of_float_finite _ Hfin) as [cents Hcents].
    eexists. split.
    + unfold generate_hub30_payload, hub30_lines. rewrite Hcents.
      cbv beta iota delta [bind_result]. reflexivity.
    + apply (nth_split_join newline
               [py "HRVHUB30"; py "EUR"; format_015d cents; []; []; [];
                company doc; py "Racka 1C";
                py "10250 Je" ++ [z_caron] ++ py "dovec"]).
      * repeat (constructor; [no_newline|]). constructor.
      * reflexivity.
Qed.

Lemma payee_iban_constant_witness :
  nth 6 (split newline (generate_bcd_payload default_document)) []
  = py "HR9123600001503417252"
  /\ exists payload,
       generate_hub30_payload default_document = Ok payload
       /\ nth 9 (split newline payload) [] = py "HR9123600001503417252".
Proof.
  destruct (payee_iban_constant default_document) as (_ & Hbcd & Hhub).
  split.
  - apply Hbcd; reflexivity.
  - apply Hhub; vm_compute; reflexivity.
Defined.

(** C10, the claim as stated fails: with a newline in the payee name the
    seventh field of the BCD string and the tenth field of the HUB30 string
    are not the IBAN; and for the amount 1e308 there is no HUB30 payload. *)
Lemma payee_iban_field_displaced :
  let doc := with_company default_document (py "A" ++ [newline] ++ py "B") in
  nth 6 (split newline (generate_bcd_payload doc)) [] = py "B"
  /\ (exists payload,
        generate_hub30_payload doc = Ok payload
        /\ nth 9 (split newline payload) [] = py "10250 Je" ++ [z_caron] ++ py "dovec")
  /\ generate_hub30_payload (with_total default_document 1e308%float)
     = Error OverflowError.
Proof.
  split; [vm_compute; reflexivity|]. split; [|vm_compute; reflexivity].
  eexists. split; vm_compute; reflexivity.
Qed.

(** ** Autocrop *)

Section Autocrop.

Lemma nth_map_seq {A : Type} (g : nat -> A) (n i : nat) (d : A) :
  i < n -> nth i (map g (seq 0 n)) d = g i.
Proof.
  intros Hi.
  rewrite (nth_indep _ d (g 0)) by (rewrite List.length_map, List.length_seq; exact Hi).
  rewrite map_nth. rewrite seq_nth by exact Hi. reflexivity.
Qed.

Lemma pixel_at_tabulate w h f x y :
  x < w -> y < h -> pixel_at (tabulate w h f) x y = f x y.
Proof.
  intros Hx Hy. unfold pixel_at, tabulate. simpl rows.
  rewrite (nth_map_seq (fun y' => map (fun x' => f x' y') (seq 0 w)) h y [])
    by exact Hy.
  apply (nth_map_seq (fun x' => f x' y)). exact Hx.
Qed.

Lemma in_coords x y w h : In (x, y) (coords w h) <-> x < w /\ y < h.
Proof.
  unfold coords. rewrite in_flat_map. split.
  - intros (y' & Hy & Hin). apply in_map_iff in Hin as (x' & E & Hx).
    inversion E; subst. apply in_seq in Hy, Hx. lia.
  - intros [Hx Hy]. exists y. split; [apply in_seq; lia|].
    apply in_map_iff. exists x. split; [reflexivity | apply in_seq; lia].
Qed.

(** A pixel differs from white exactly when its difference with white is
    non-zero. *)
Lemma nonzero_difference_white p :
  nonzero (channel_difference p white) = true <-> p <> white.
Proof.
  destruct p as [[r g] b]. unfold channel_difference, white, nonzero.
  rewrite negb_true_iff. split.
  - intros H E. inversion E; subst. discriminate H.
  - intros H. apply not_true_is_false. intros E.
    apply andb_prop in E as [E Eb]. apply andb_prop in E as [Er Eg].
    apply Z.eqb_eq in Er, Eg, Eb.
    apply H. f_equal; [f_equal|]; lia.
Qed.

Lemma in_content img x y :
  In (x, y) (content img) <->
  x < width img /\ y < height img /\ pixel_at img x y <> white.
Proof.
  unfold content. rewrite filter_In, in_coords. simpl fst. simpl snd.
  rewrite nonzero_difference_white. tauto.
Qed.

(** The bounding box that [auto_crop_white] computes is the one of the
    non-white coordinates. *)
Lemma getbbox_difference_white img :
  getbbox (difference img (new_white (width img) (height img)))
  = bbox_of (content img).
Proof.
  unfold getbbox, content, difference, new_white. f_equal.
  simpl width. simpl height. rewrite !Nat.min_id.
  set (diff := tabulate _ _ _).
  assert (List.filter (fun c => nonzero (pixel_at diff (fst c) (snd c)))
            (coords (width img) (height img))
          = List.filter
              (fun c => nonzero
                 (channel_difference (pixel_at img (fst c) (snd c)) white))
              (coords (width img) (height img))) as E; [|exact E].
  apply filter_ext_in. intros [x y] Hin. apply in_coords in Hin as [Hx Hy].
  simpl fst. simpl snd. unfold diff.
  rewrite pixel_at_tabulate by assumption.
  rewrite pixel_at_tabulate by assumption. reflexivity.
Qed.

Lemma minimum_le l z : In z l -> minimum l <= z.
Proof.
  induction l as [|x l IH]; [intros []|].
  intros [->|Hin].
  - destruct l; simpl; lia.
  - specialize (IH Hin). destruct l as [|y l]; [destruct Hin|].
    change (minimum (x :: y :: l)) with (Nat.min x (minimum (y :: l))). lia.
Qed.

Lemma minimum_In l : l <> [] -> In (minimum l) l.
Proof.
  induction l as [|x l IH]; [congruence|]. intros _.
  destruct l as [|y l]; [left; reflexivity|].
  change (minimum (x :: y :: l)) with (Nat.min x (minimum (y :: l))).
  destruct (Nat.min_spec x (minimum (y :: l))) as [[_ ->]|[_ ->]].
  - left. reflexivity.
  - right. apply IH. discriminate.
Qed.

Lemma maximum_ge l z : In z l -> z <= maximum l.
Proof.
  induction l as [|x l IH]; [intros []|].
  unfold maximum in *. simpl. intros [->|Hin]; [lia|].
  specialize (IH Hin). lia.
Qed.

Lemma maximum_In l : l <> [] -> In (maximum l) l.
Proof.
  induction l as [|x l IH]; [congruence|]. intros _.
  unfold maximum in *. simpl.
  destruct l as [|y l]; [left; simpl; lia|].
  destruct (Nat.max_spec x (fold_right Nat.max 0 (y :: l))) as [[_ ->]|[_ ->]].
  - right. apply IH. discriminate.
  - left. reflexivity.
Qed.

(** What a bounding box says about the coordinates it was computed from:
    every coordinate is inside, and each of the four sides is touched. *)
Lemma bbox_of_Some nz x0 y0 x1 y1 :
  bbox_of nz = Some (x0, y0, x1, y1) ->
  (forall x y, In (x, y) nz -> x0 <= x < x1 /\ y0 <= y < y1)
  /\ (exists y, In (x0, y) nz)
  /\ (exists y, In (x1 - 1, y) nz) /\ 0 < x1
  /\ (exists x, In (x, y0) nz)
  /\ (exists x, In (x, y1 - 1) nz) /\ 0 < y1.
Proof.
  intros Hb.
  assert (map fst nz <> []) as Hf by (destruct nz; discriminate).
  assert (map snd nz <> []) as Hs by (destruct nz; discriminate).
  assert (bbox_of nz =
            Some (minimum (map fst nz), minimum (map snd nz),
                  S (maximum (map fst nz)), S (maximum (map snd nz)))) as E
    by (destruct nz; [discriminate | reflexivity]).
  rewrite E in Hb. clear E.
  assert (x0 = minimum (map fst nz)) as -> by congruence.
  assert (y0 = minimum (map snd nz)) as -> by congruence.
  assert (x1 = S (maximum (map fst nz))) as -> by congruence.
  assert (y1 = S (maximum (map snd nz))) as -> by congruence.
  clear Hb.
  assert (forall (l : list (nat * nat)) (v : nat),
            In v (map fst l) -> exists y, In (v, y) l) as Pf.
  { intros l v H. apply in_map_iff in H as ([a b] & E & H). simpl in E. subst.
    eauto. }
  assert (forall (l : list (nat * nat)) (v : nat),
            In v (map snd l) -> exists x, In (x, v) l) as Ps.
  { intros l v H. apply in_map_iff in H as ([a b] & E & H). simpl in E. subst.
    eauto. }
  split; [|split; [|split; [|split; [|split; [|split]]]]].
  - intros x y Hin.
    pose proof (minimum_le (map fst nz) x (in_map fst _ _ Hin)).
    pose proof (maximum_ge (map fst nz) x (in_map fst _ _ Hin)).
    pose proof (minimum_le (map snd nz) y (in_map snd _ _ Hin)).
    pose proof (maximum_ge (map snd nz) y (in_map snd _ _ Hin)).
    change (fst (x, y)) with x in *. change (snd (x, y)) with y in *. lia.
  - apply Pf, minimum_In, Hf.
  - replace (S (maximum (map fst nz)) - 1) with (maximum (map fst nz)) by lia.
    apply Pf, maximum_In, Hf.
  - lia.
  - apply Ps, minimum_In, Hs.
  - replace (S (maximum (map snd nz)) - 1) with (maximum (map snd nz)) by lia.
    apply Ps, maximum_In, Hs.
  - lia.
Qed.

(** A list of coordinates that lies inside [w] by [h] and touches the four
    sides has the full frame as its bounding box. *)
Lemma bbox_of_full nz w h :
  (forall x y, In (x, y) nz -> x < w /\ y < h) ->
  (exists y, In (0, y) nz) ->
  (exists y, In (w - 1, y) nz) ->
  (exists x, In (x, 0) nz) ->
  (exists x, In (x, h - 1) nz) ->
  bbox_of nz = Some (0, 0, w, h).
Proof.
  intros Hin [ya Ha] [yb Hb] [xa Hc] [xb Hd].
  assert (map fst nz <> []) as Hf by (destruct nz; [destruct Ha | discriminate]).
  assert (map snd nz <> []) as Hs by (destruct nz; [destruct Ha | discriminate]).
  assert (bbox_of nz =
            Some (minimum (map fst nz), minimum (map snd nz),
                  S (maximum (map fst nz)), S (maximum (map snd nz)))) as ->
    by (destruct nz; [destruct Ha | reflexivity]).
  pose proof (minimum_le _ _ (in_map fst _ _ Ha)) as M1.
  pose proof (minimum_le _ _ (in_map snd _ _ Hc)) as M2.
  pose proof (maximum_ge _ _ (in_map fst _ _ Hb)) as M3.
  pose proof (maximum_ge _ _ (in_map snd _ _ Hd)) as M4.
  change (fst (0, ya)) with 0 in M1. change (snd (xa, 0)) with 0 in M2.
  change (fst (w - 1, yb)) with (w - 1) in M3.
  change (snd (xb, h - 1)) with (h - 1) in M4.
  pose proof (maximum_In _ Hf) as I1. apply in_map_iff in I1 as ([x1 y1] & E1 & I1).
  pose proof (maximum_In _ Hs) as I2. apply in_map_iff in I2 as ([x2 y2] & E2 & I2).
  simpl in E1, E2.
  apply Hin in I1, I2.
  f_equal. f_equal; [f_equal; [f_equal|]|]; lia.
Qed.

(** Cropping a tabulated image to its full frame changes nothing. *)
Lemma crop_full w h f :
  crop (tabulate w h f) (0, 0, w, h) = tabulate w h f.
Proof.
  unfold crop. rewrite !Nat.sub_0_r.
  unfold tabulate at 1 3. f_equal.
  apply map_ext_in. intros y Hy. apply in_seq in Hy.
  apply map_ext_in. intros x Hx. apply in_seq in Hx.
  simpl Nat.add. apply pixel_at_tabulate; lia.
Qed.

(** After one crop the bounding box is the full frame. *)
Lemma content_crop_full img x0 y0 x1 y1 :
  bbox_of (content img) = Some (x0, y0, x1, y1) ->
  bbox_of (content (crop img (x0, y0, x1, y1)))
  = Some (0, 0, x1 - x0, y1 - y0).
Proof.
  intros Hb.
  destruct (bbox_of_Some _ _ _ _ _ Hb)
    as (Hin & [ya Ha] & [yb Hb'] & Hx1 & [xa Hc] & [xb Hd] & Hy1).
  set (c := crop img (x0, y0, x1, y1)).
  assert (forall x y, In (x, y) (content c) <->
            x < x1 - x0 /\ y < y1 - y0 /\ pixel_at img (x0 + x) (y0 + y) <> white)
    as Hcontent.
  { intros x y. rewrite in_content. unfold c, crop. simpl width. simpl height.
    split.
    - intros (Hx & Hy & Hp). rewrite pixel_at_tabulate in Hp by assumption. tauto.
    - intros (Hx & Hy & Hp). rewrite pixel_at_tabulate by assumption. tauto. }
  assert (forall x y, In (x, y) (content img) -> In (x - x0, y - y0) (content c))
    as Hshift.
  { intros x y H. pose proof (Hin x y H) as [Bx By].
    apply in_content in H as (_ & _ & Hp). apply Hcontent.
    replace (x0 + (x - x0)) with x by lia.
    replace (y0 + (y - y0)) with y by lia.
    split; [lia|]. split; [lia | exact Hp]. }
  apply bbox_of_full.
  - intros x y H. apply Hcontent in H. lia.
  - exists (ya - y0). pose proof (Hshift _ _ Ha) as H.
    rewrite Nat.sub_diag in H. exact H.
  - exists (yb - y0). pose proof (Hshift _ _ Hb') as H.
    replace (x1 - 1 - x0) with (x1 - x0 - 1) in H by lia. exact H.
  - exists (xa - x0). pose proof (Hshift _ _ Hc) as H.
    rewrite Nat.sub_diag in H. exact H.
  - exists (xb - x0). pose proof (Hshift _ _ Hd) as H.
    replace (y1 - 1 - y0) with (y1 - y0 - 1) in H by lia. exact H.
Qed.

End Autocrop.

(** C8. [auto_crop_white] is idempotent on every image, and an image whose
    pixels are all white comes back unchanged. *)
Theorem auto_crop_white_idempotent (img : image) :
  auto_crop_white (auto_crop_white img) = auto_crop_white img
  /\ ((forall x y, x < width img -> y < height img -> pixel_at img x y = white) ->
      auto_crop_white img = img).
Proof.
  split.
  - unfold auto_crop_white at 2 3.
    rewrite getbbox_difference_white.
    destruct (bbox_of (content img)) as [[[[x0 y0] x1] y1]|] eqn:Hb.
    + unfold auto_crop_white. rewrite getbbox_difference_white.
      rewrite (content_crop_full _ _ _ _ _ Hb).
      unfold crop at 2 3. apply crop_full.
    + unfold auto_crop_white. rewrite getbbox_difference_white, Hb. reflexivity.
  - intros Hwhite. unfold auto_crop_white.
    rewrite getbbox_difference_white.
    destruct (content img) as [|[x y] nz] eqn:E; [reflexivity|].
    assert (In (x, y) (content img)) as Hin by (rewrite E; left; reflexivity).
    apply in_content in Hin as (Hx & Hy & Hp).
    exfalso. apply Hp, Hwhite; assumption.
Qed.

Lemma auto_crop_white_idempotent_witness :
  auto_crop_white (new_white 2 2) = new_white 2 2.
Proof.
  apply (proj2 (auto_crop_white_idempotent (new_white 2 2))).
  intros x y Hx Hy. apply pixel_at_tabulate; assumption.
Defined.

(** ** Base64 and the packager *)

Section Base64Lemmas.

Local Open Scope N_scope.

Lemma all_below_spec n f a :
  all_below n f = true -> a < N.of_nat n -> f a = true.
Proof.
  unfold all_below. intros H Ha.
  rewrite forallb_forall in H. apply H.
  apply in_map_iff. exists (N.to_nat a). split; [apply N2Nat.id|].
  apply in_seq. lia.
Qed.

Lemma byte_of_to_N b : byte_of_N (Byte.to_N b) = b.
Proof. unfold byte_of_N. now rewrite Byte.of_to_N. Qed.

Lemma to_N_lt_256 b : Byte.to_N b < 256.
Proof. pose proof (Byte.to_N_bounded b). lia. Qed.

(** Every alphabet character is ASCII, is neither "," nor "=", and decodes
    to its own index. *)
Lemma b2a_sextet s :
  s < 64 ->
  let c := Byte.to_N (b2a s) in
  (c <? 128) = true /\ c <> comma /\ (c =? 61) = false
  /\ table_a2b_base64 c = s.
Proof.
  intros Hs.
  assert (all_below 64 (fun s =>
            let c := Byte.to_N (b2a s) in
            (c <? 128) && negb (c =? 44) && negb (c =? 61)
            && (table_a2b_base64 c =? s)) = true) as H by (vm_compute; reflexivity).
  apply (all_below_spec _ _ s) in H; [|exact Hs].
  cbv zeta in *.
  apply andb_prop in H as [H H4]. apply andb_prop in H as [H H3].
  apply andb_prop in H as [H1 H2].
  apply negb_true_iff in H2, H3. apply N.eqb_neq in H2. apply N.eqb_eq in H4.
  unfold comma. tauto.
Qed.

Lemma b2a_plain s :
  let c := Byte.to_N (b2a s) in (c <? 128) = true /\ c <> comma.
Proof.
  destruct (N.lt_ge_cases s 64) as [Hs|Hs].
  - pose proof (b2a_sextet s Hs) as H. cbv zeta in *. tauto.
  - unfold b2a. rewrite nth_overflow.
    + split; [reflexivity | discriminate].
    + change (length table_b2a_base64) with 64%nat. lia.
Qed.

(** The bit identities of one group of three bytes. *)
Lemma group_first a b :
  a < 256 -> b < 256 ->
  let s0 := N.shiftr a 2 in
  let s1 := N.lor (N.shiftl (N.land a 3) 4) (N.shiftr b 4) in
  s0 < 64 /\ s1 < 64
  /\ N.lor (N.shiftl s0 2) (N.shiftr s1 4) mod 256 = a
  /\ N.land s1 15 = N.shiftr b 4.
Proof.
  intros Ha Hb.
  assert (all_below 256 (fun a => all_below 256 (fun b =>
            let s0 := N.shiftr a 2 in
            let s1 := N.lor (N.shiftl (N.land a 3) 4) (N.shiftr b 4) in
            (s0 <? 64) && (s1 <? 64)
            && (N.lor (N.shiftl s0 2) (N.shiftr s1 4) mod 256 =? a)
            && (N.land s1 15 =? N.shiftr b 4))) = true) as H
    by (vm_compute; reflexivity).
  apply (all_below_spec _ _ a) in H; [|exact Ha].
  apply (all_below_spec _ _ b) in H; [|exact Hb].
  cbv zeta in *.
  apply andb_prop in H as [H H4]. apply andb_prop in H as [H H3].
  apply andb_prop in H as [H1 H2].
  apply N.ltb_lt in H1, H2. apply N.eqb_eq in H3, H4. tauto.
Qed.

Lemma group_second b c :
  b < 256 -> c < 256 ->
  let s2 := N.lor (N.shiftl (N.land b 15) 2) (N.shiftr c 6) in
  s2 < 64
  /\ N.lor (N.shiftl (N.shiftr b 4) 4) (N.shiftr s2 2) mod 256 = b
  /\ N.land s2 3 = N.shiftr c 6.
Proof.
  intros Hb Hc.
  assert (all_below 256 (fun b => all_below 256 (fun c =>
            let s2 := N.lor (N.shiftl (N.land b 15) 2) (N.shiftr c 6) in
            (s2 <? 64)
            && (N.lor (N.shiftl (N.shiftr b 4) 4) (N.shiftr s2 2) mod 256 =? b)
            && (N.land s2 3 =? N.shiftr c 6))) = true) as H
    by (vm_compute; reflexivity).
  apply (all_below_spec _ _ b) in H; [|exact Hb].
  apply (all_below_spec _ _ c) in H; [|exact Hc].
  cbv zeta in *.
  apply andb_prop in H as [H H3]. apply andb_prop in H as [H1 H2].
  apply N.ltb_lt in H1. apply N.eqb_eq in H2, H3. tauto.
Qed.

Lemma group_third c :
  c < 256 ->
  let s3 := N.land c 63 in
  s3 < 64 /\ N.lor (N.shiftl (N.shiftr c 6) 6) s3 mod 256 = c.
Proof.
  intros Hc.
  assert (all_below 256 (fun c =>
            let s3 := N.land c 63 in
            (s3 <? 64)
            && (N.lor (N.shiftl (N.shiftr c 6) 6) s3 mod 256 =? c)) = true) as H
    by (vm_compute; reflexivity).
  apply (all_below_spec _ _ c) in H; [|exact Hc].
  cbv zeta in *.
  apply andb_prop in H as [H1 H2].
  apply N.ltb_lt in H1. apply N.eqb_eq in H2. tauto.
Qed.

(** The last group of one byte and of two bytes. *)
Lemma group_tail_one a :
  a < 256 ->
  let s0 := N.shiftr a 2 in
  let s1 := N.shiftl (N.land a 3) 4 in
  s0 < 64 /\ s1 < 64 /\ N.lor (N.shiftl s0 2) (N.shiftr s1 4) mod 256 = a.
Proof.
  intros Ha.
  assert (all_below 256 (fun a =>
            let s0 := N.shiftr a 2 in
            let s1 := N.shiftl (N.land a 3) 4 in
            (s0 <? 64) && (s1 <? 64)
            && (N.lor (N.shiftl s0 2) (N.shiftr s1 4) mod 256 =? a)) = true) as H
    by (vm_compute; reflexivity).
  apply (all_below_spec _ _ a) in H; [|exact Ha].
  cbv zeta in *.
  apply andb_prop in H as [H H3]. apply andb_prop in H as [H1 H2].
  apply N.ltb_lt in H1, H2. apply N.eqb_eq in H3. tauto.
Qed.

Lemma group_tail_two b :
  b < 256 ->
  let s2 := N.shiftl (N.land b 15) 2 in
  s2 < 64 /\ N.lor (N.shiftl (N.shiftr b 4) 4) (N.shiftr s2 2) mod 256 = b.
Proof.
  intros Hb.
  assert (all_below 256 (fun b =>
            let s2 := N.shiftl (N.land b 15) 2 in
            (s2 <? 64)
            && (N.lor (N.shiftl (N.shiftr b 4) 4) (N.shiftr s2 2) mod 256 =? b))
          = true) as H by (vm_compute; reflexivity).
  apply (all_below_spec _ _ b) in H; [|exact Hb].
  cbv zeta in *.
  apply andb_prop in H as [H1 H2].
  apply N.ltb_lt in H1. apply N.eqb_eq in H2. tauto.
Qed.

(** One step of the decoding loop on an alphabet character. *)
Lemma a2b_loop_sextet s rest quad_pos leftchar pads bin_data :
  s < 64 ->
  a2b_loop (Byte.to_N (b2a s) :: rest) quad_pos leftchar pads bin_data =
    if quad_pos =? 0 then a2b_loop rest 1 s 0 bin_data
    else if quad_pos =? 1 then
      a2b_loop rest 2 (N.land s 15) 0
        (bin_data ++
           [byte_of_N (N.lor (N.shiftl leftchar 2) (N.shiftr s 4) mod 256)])
    else if quad_pos =? 2 then
      a2b_loop rest 3 (N.land s 3) 0
        (bin_data ++
           [byte_of_N (N.lor (N.shiftl leftchar 4) (N.shiftr s 2) mod 256)])
    else
      a2b_loop rest 0 0 0
        (bin_data ++ [byte_of_N (N.lor (N.shiftl leftchar 6) s mod 256)]).
Proof.
  intros Hs. destruct (b2a_sextet s Hs) as (_ & _ & Hpad & Htable).
  cbv zeta in *. cbn [a2b_loop]. rewrite Hpad, Htable.
  assert ((64 <=? s) = false) as -> by (apply N.leb_gt; exact Hs).
  reflexivity.
Qed.

(** Decoding what [b64encode] produced appends the bytes encoded. *)
Lemma a2b_loop_b64encode (n : nat) :
  forall data bin_data,
    (length data <= n)%nat ->
    a2b_loop (decode (b64encode data)) 0 0 0 bin_data = Ok (bin_data ++ data).
Proof.
  induction n as [n IH] using (well_founded_induction lt_wf).
  intros data bin_data Hlen.
  destruct data as [|a [|b [|c rest]]].
  - simpl. now rewrite app_nil_r.
  - pose proof (to_N_lt_256 a) as Ha.
    destruct (group_tail_one _ Ha) as (H0 & H1 & E). cbv zeta in *.
    change (decode (b64encode [a]))
      with (Byte.to_N (b2a (N.shiftr (Byte.to_N a) 2))
            :: Byte.to_N (b2a (N.shiftl (N.land (Byte.to_N a) 3) 4))
            :: [61; 61]).
    rewrite a2b_loop_sextet by exact H0. cbn [N.eqb].
    rewrite a2b_loop_sextet by exact H1. cbn [N.eqb Pos.eqb].
    rewrite E, byte_of_to_N. reflexivity.
  - pose proof (to_N_lt_256 a) as Ha. pose proof (to_N_lt_256 b) as Hb.
    destruct (group_first _ _ Ha Hb) as (H0 & H1 & E1 & L1).
    destruct (group_tail_two _ Hb) as (H2 & E2). cbv zeta in *.
    change (decode (b64encode [a; b]))
      with (Byte.to_N (b2a (N.shiftr (Byte.to_N a) 2))
            :: Byte.to_N (b2a (N.lor (N.shiftl (N.land (Byte.to_N a) 3) 4)
                                 (N.shiftr (Byte.to_N b) 4)))
            :: Byte.to_N (b2a (N.shiftl (N.land (Byte.to_N b) 15) 2))
            :: [61]).
    rewrite a2b_loop_sextet by exact H0. cbn [N.eqb].
    rewrite a2b_loop_sextet by exact H1. cbn [N.eqb Pos.eqb].
    rewrite a2b_loop_sextet by exact H2. cbn [N.eqb Pos.eqb].
    rewrite E1, L1, E2, !byte_of_to_N. rewrite <- app_assoc. reflexivity.
  - pose proof (to_N_lt_256 a) as Ha. pose proof (to_N_lt_256 b) as Hb.
    pose proof (to_N_lt_256 c) as Hc.
    destruct (group_first _ _ Ha Hb) as (H0 & H1 & E1 & L1).
    destruct (group_second _ _ Hb Hc) as (H2 & E2 & L2).
    destruct (group_third _ Hc) as (H3 & E3). cbv zeta in *.
    change (decode (b64encode (a :: b :: c :: rest)))
      with (Byte.to_N (b2a (N.shiftr (Byte.to_N a) 2))
            :: Byte.to_N (b2a (N.lor (N.shiftl (N.land (Byte.to_N a) 3) 4)
                                 (N.shiftr (Byte.to_N b) 4)))
            :: Byte.to_N (b2a (N.lor (N.shiftl (N.land (Byte.to_N b) 15) 2)
                                 (N.shiftr (Byte.to_N c) 6)))
            :: Byte.to_N (b2a (N.land (Byte.to_N c) 63))
            :: decode (b64encode rest)).
    rewrite a2b_loop_sextet by exact H0. cbn [N.eqb].
    rewrite a2b_loop_sextet by exact H1. cbn [N.eqb Pos.eqb].
    rewrite a2b_loop_sextet by exact H2. cbn [N.eqb Pos.eqb].
    rewrite a2b_loop_sextet by exact H3. cbn [N.eqb Pos.eqb].
    rewrite E1, L1, E2, L2, E3, !byte_of_to_N.
    rewrite (IH (length rest)) by (simpl in Hlen; simpl; lia).
    rewrite <- !app_assoc. reflexivity.
Qed.

(** What [b64encode] emits is ASCII without a comma. *)
Lemma b64encode_plain (n : nat) :
  forall data,
    (length data <= n)%nat ->
    Forall (fun c => (c <? 128) = true /\ c <> comma) (decode (b64encode data)).
Proof.
  assert ((61 <? 128) = true /\ 61 <> comma) as Hpad
    by (split; [reflexivity | discriminate]).
  induction n as [n IH] using (well_founded_induction lt_wf).
  intros data Hlen.
  destruct data as [|a [|b [|c rest]]].
  - constructor.
  - repeat (constructor; [first [apply b2a_plain | exact Hpad]|]). constructor.
  - repeat (constructor; [first [apply b2a_plain | exact Hpad]|]). constructor.
  - change (decode (b64encode (a :: b :: c :: rest)))
      with (Byte.to_N (b2a (N.shiftr (Byte.to_N a) 2))
            :: Byte.to_N (b2a (N.lor (N.shiftl (N.land (Byte.to_N a) 3) 4)
                                 (N.shiftr (Byte.to_N b) 4)))
            :: Byte.to_N (b2a (N.lor (N.shiftl (N.land (Byte.to_N b) 15) 2)
                                 (N.shiftr (Byte.to_N c) 6)))
            :: Byte.to_N (b2a (N.land (Byte.to_N c) 63))
            :: decode (b64encode rest)).
    repeat (constructor; [apply b2a_plain|]).
    apply (IH (length rest)); simpl in Hlen; simpl; lia.
Qed.

(** [b64decode] inverts [b64encode]. *)
Lemma b64decode_b64encode data :
  b64decode (decode (b64encode data)) = Ok data.
Proof.
  unfold b64decode.
  pose proof (b64encode_plain (length data) data (le_n _)) as Hp.
  assert (forallb (fun c => c <? 128) (decode (b64encode data)) = true) as ->.
  { apply forallb_forall. intros c Hc.
    rewrite List.Forall_forall in Hp. apply Hp in Hc. tauto. }
  apply (a2b_loop_b64encode (length data) data []). apply le_n.
Qed.

End Base64Lemmas.

Lemma data_uri_split buf :
  split comma (buffer_to_data_uri buf)
  = [py "data:image/png;base64"; decode (b64encode buf)].
Proof.
  unfold buffer_to_data_uri.
  change (py "data:image/png;base64,")
    with (py "data:image/png;base64" ++ [comma]).
  rewrite <- app_assoc. simpl ([comma] ++ _).
  rewrite split_app_sep by reflexivity. f_equal.
  apply split_no_sep. apply contains_false_Forall.
  eapply Forall_impl; [apply (b64encode_plain (length buf)); apply le_n|].
  intros c [_ Hc]. exact Hc.
Qed.

(** C7. For every byte stream, the data URI of [buffer_to_data_uri] starts
    with the prefix, the text after the comma is its Base64 encoding, which
    decodes to the original bytes, and [save_data_uri_to_file] stores exactly
    those bytes under the file name (when the file can be opened for
    writing) and prints its message; when printing the message raises, the
    bytes are stored all the same and that exception is raised. *)
Theorem data_uri_round_trip (buf : list byte) (filename : str) (w : world) :
  writable w filename = true ->
  startswith (py "data:image/png;base64,") (buffer_to_data_uri buf) = true
  /\ index (split comma (buffer_to_data_uri buf)) 1
     = Ok (decode (b64encode buf))
  /\ b64decode (decode (b64encode buf)) = Ok buf
  /\ save_data_uri_to_file (buffer_to_data_uri buf) filename w
     = match print_error w (py "Slika spremljena: " ++ filename) with
       | None =>
           (Ok tt,
            {| files := <[filename := buf]> (files w);
               open_error := open_error w;
               print_error := print_error w;
               stdout := stdout w ++ [py "Slika spremljena: " ++ filename] |})
       | Some e =>
           (Error e,
            {| files := <[filename := buf]> (files w);
               open_error := open_error w;
               print_error := print_error w;
               stdout := stdout w |})
       end
  /\ files (snd (save_data_uri_to_file (buffer_to_data_uri buf) filename w))
       !! filename = Some buf.
Proof.
  intros Hw.
  assert (open_error w filename = None) as Hopen
    by (unfold writable in Hw; destruct (open_error w filename);
        [discriminate | reflexivity]).
  assert (startswith (py "data:image/png;base64,") (buffer_to_data_uri buf)
          = true) as Hprefix by apply startswith_app.
  split; [exact Hprefix|].
  split; [rewrite data_uri_split; reflexivity|].
  split; [apply b64decode_b64encode|].
  assert (save_data_uri_to_file (buffer_to_data_uri buf) filename w
          = match print_error w (py "Slika spremljena: " ++ filename) with
            | None =>
                (Ok tt,
                 {| files := <[filename := buf]> (files w);
                    open_error := open_error w;
                    print_error := print_error w;
                    stdout := stdout w
                                ++ [py "Slika spremljena: " ++ filename] |})
            | Some e =>
                (Error e,
                 {| files := <[filename := buf]> (files w);
                    open_error := open_error w;
                    print_error := print_error w;
                    stdout := stdout w |})
            end) as Hsave.
  { unfold save_data_uri_to_file. rewrite Hprefix, data_uri_split.
    unfold bind, lift, index, write_file, print, printed. cbn [nth_error].
    rewrite b64decode_b64encode, Hopen.
    cbn [files open_error print_error stdout].
    destruct (print_error w (py "Slika spremljena: " ++ filename));
      reflexivity. }
  split; [exact Hsave|].
  rewrite Hsave.
  destruct (print_error w (py "Slika spremljena: " ++ filename));
    cbn [snd files]; apply lookup_insert_eq.
Qed.

Lemma data_uri_round_trip_witness :
  save_data_uri_to_file (buffer_to_data_uri png_signature) (py "qr.png")
    empty_world
  = (Ok tt,
     {| files := <[py "qr.png" := png_signature]> (files empty_world);
        open_error := open_error empty_world;
        print_error := print_error empty_world;
        stdout := stdout empty_world ++ [py "Slika spremljena: " ++ py "qr.png"] |}).
Proof.
  exact (proj1 (proj2 (proj2 (proj2
           (data_uri_round_trip png_signature (py "qr.png") empty_world
              eq_refl))))).
Defined.

(** C6 (as amended). Given a reference that does not start with
    "data:image/png;base64,", [save_data_uri_to_file] does nothing: it
    returns normally, writes no file and prints nothing. *)
Theorem save_ignores_other_prefix (data_uri filename : str) (w : world) :
  startswith (py "data:image/png;base64,") data_uri = false ->
  save_data_uri_to_file data_uri filename w = (Ok tt, w).
Proof.
  intros H. unfold save_data_uri_to_file. rewrite H. reflexivity.
Qed.

Lemma save_ignores_other_prefix_witness :
  save_data_uri_to_file (py "data:image/jpeg;base64,AAAA") (py "out.png")
    empty_world
  = (Ok tt, empty_world).
Proof.
  apply (save_ignores_other_prefix
           (py "data:image/jpeg;base64,AAAA") (py "out.png") empty_world).
  reflexivity.
Defined.

(** C6, the claim as stated fails: the reference "hello" does not start with
    the prefix, and the call returns normally instead of raising, leaving
    the files and the output as they were. *)
Lemma save_does_not_reject :
  startswith (py "data:image/png;base64,") (py "hello") = false
  /\ fst (save_data_uri_to_file (py "hello") (py "out.png") empty_world)
     = Ok tt
  /\ (forall e,
        fst (save_data_uri_to_file (py "hello") (py "out.png") empty_world)
        <> Error e).
Proof.
  split; [reflexivity|]. split; [reflexivity|]. intros e. discriminate.
Qed.


(** ** The renderers *)

Section RendererLemmas.

Context {L : Libraries}.

Lemma handler_swallowed (line : str) (w : world) :
  (_ <-- print line ;; ret []) w = swallowed w line.
Proof.
  unfold bind, print, ret, swallowed.
  destruct (print_error w line); reflexivity.
Qed.

Lemma get_pdf417_chain data scale ratio w :
  get_pdf417 data scale ratio w =
    match pdf417_chain data scale ratio with
    | Ok s => (Ok s, w)
    | Error e =>
        swallowed w (py "PDF417 gre" ++ [s_caron] ++ py "ka: " ++ exn_str e)
    end.
Proof.
  unfold get_pdf417, pdf417_chain, try_except, bind_result.
  unfold bind at 1 2 3 4. unfold lift, ret.
  destruct (pdf417_encode data 9 2) as [codes|e];
    [|apply handler_swallowed].
  destruct (pdf417_render_image codes scale ratio) as [im|e];
    [|apply handler_swallowed].
  destruct (convert_RGB im) as [im'|e]; [|apply handler_swallowed].
  destruct (save_PNG (auto_crop_white im')) as [buf|e];
    [reflexivity | apply handler_swallowed].
Qed.

Lemma get_qr_code_chain data box_size border w :
  get_qr_code data box_size border w =
    match qr_chain data box_size border with
    | Ok s => (Ok s, w)
    | Error e =>
        swallowed w (py "QR kod gre" ++ [s_caron] ++ py "ka: " ++ exn_str e)
    end.
Proof.
  unfold get_qr_code, qr_chain, try_except, bind_result.
  unfold bind at 1 2 3 4. unfold lift, ret.
  destruct (qrcode_make box_size border data) as [qr|e];
    [|apply handler_swallowed].
  destruct (qrcode_make_image qr) as [im|e]; [|apply handler_swallowed].
  destruct (convert_RGB im) as [im'|e]; [|apply handler_swallowed].
  destruct (save_PNG (auto_crop_white im')) as [buf|e];
    [reflexivity | apply handler_swallowed].
Qed.

Lemma get_barcode_image_chain data barcode_type mw mh w :
  get_barcode_image data barcode_type mw mh w =
    match barcode_chain data barcode_type mw mh with
    | Ok s => (Ok s, w)
    | Error e =>
        swallowed w (py "Gre" ++ [s_caron]
                       ++ py "ka pri generiranju barkoda: " ++ exn_str e)
    end.
Proof.
  unfold get_barcode_image, barcode_chain, try_except, bind_result.
  unfold bind at 1 2 3. unfold lift, ret.
  destruct (get_barcode_class barcode_type) as [cls|e];
    [|apply handler_swallowed].
  destruct (barcode_new cls data) as [code|e]; [|apply handler_swallowed].
  destruct (barcode_write code _) as [buf|e];
    [reflexivity | apply handler_swallowed].
Qed.

End RendererLemmas.

(** C5 (as amended). No failure of the libraries reaches the caller as
    such.  Each renderer runs its library calls in order; when one of them
    raises, at whatever stage, the renderer prints one line with the text of
    the exception and returns the empty string ([swallowed]); only when all
    of them return does it return the data URI of the encoded image, with
    the world untouched.  The one exception that can leave a renderer is
    that of [print] itself, when printing the line raises. *)
Theorem renderers_swallow_failures `{L : Libraries} (data : str) (w : world) :
  (forall scale ratio,
     get_pdf417 data scale ratio w =
       let failed e :=
         swallowed w (py "PDF417 gre" ++ [s_caron] ++ py "ka: " ++ exn_str e) in
       match pdf417_encode data 9 2 with
       | Error e => failed e
       | Ok codes =>
           match pdf417_render_image codes scale ratio with
           | Error e => failed e
           | Ok image =>
               match convert_RGB image with
               | Error e => failed e
               | Ok image =>
                   match save_PNG (auto_crop_white image) with
                   | Error e => failed e
                   | Ok buf => (Ok (buffer_to_data_uri buf), w)
                   end
               end
           end
       end)
  /\ (forall box_size border,
     get_qr_code data box_size border w =
       let failed e :=
         swallowed w (py "QR kod gre" ++ [s_caron] ++ py "ka: " ++ exn_str e) in
       match qrcode_make box_size border data with
       | Error e => failed e
       | Ok qr =>
           match qrcode_make_image qr with
           | Error e => failed e
           | Ok img =>
               match convert_RGB img with
               | Error e => failed e
               | Ok img =>
                   match save_PNG (auto_crop_white img) with
                   | Error e => failed e
                   | Ok buf => (Ok (buffer_to_data_uri buf), w)
                   end
               end
           end
       end)
  /\ (forall barcode_type mw mh,
     get_barcode_image data barcode_type mw mh w =
       let failed e :=
         swallowed w (py "Gre" ++ [s_caron]
                        ++ py "ka pri generiranju barkoda: " ++ exn_str e) in
       match get_barcode_class barcode_type with
       | Error e => failed e
       | Ok cls =>
           match barcode_new cls data with
           | Error e => failed e
           | Ok code =>
               match barcode_write code
                       {| module_width := mw; module_height := mh;
                          quiet_zone := 6.5%float; font_size := 10 |} with
               | Error e => failed e
               | Ok buf => (Ok (buffer_to_data_uri buf), w)
               end
           end
       end)
  /\ (forall line,
     print_error w line = None -> swallowed w line = (Ok [], printed w line))
  /\ (forall line e,
     print_error w line = Some e -> swallowed w line = (Error e, w)).
Proof.
  split; [|split; [|split; [|split]]].
  - intros scale ratio. rewrite get_pdf417_chain.
    unfold pdf417_chain, bind_result. cbv zeta.
    destruct (pdf417_encode data 9 2) as [codes|e]; [|reflexivity].
    destruct (pdf417_render_image codes scale ratio) as [im|e]; [|reflexivity].
    destruct (convert_RGB im) as [im'|e]; [|reflexivity].
    destruct (save_PNG (auto_crop_white im')) as [buf|e]; reflexivity.
  - intros box_size border. rewrite get_qr_code_chain.
    unfold qr_chain, bind_result. cbv zeta.
    destruct (qrcode_make box_size border data) as [qr|e]; [|reflexivity].
    destruct (qrcode_make_image qr) as [im|e]; [|reflexivity].
    destruct (convert_RGB im) as [im'|e]; [|reflexivity].
    destruct (save_PNG (auto_crop_white im')) as [buf|e]; reflexivity.
  - intros barcode_type mw mh. rewrite get_barcode_image_chain.
    unfold barcode_chain, bind_result. cbv zeta.
    destruct (get_barcode_class barcode_type) as [cls|e]; [|reflexivity].
    destruct (barcode_new cls data) as [code|e]; [|reflexivity].
    destruct (barcode_write code _) as [buf|e]; reflexivity.
  - intros line H. unfold swallowed. rewrite H. reflexivity.
  - intros line e H. unfold swallowed. rewrite H. reflexivity.
Qed.

Lemma renderers_swallow_failures_witness :
  swallowed empty_world (py "QR kod gre" ++ [s_caron] ++ py "ka: ")
  = (Ok [], printed empty_world (py "QR kod gre" ++ [s_caron] ++ py "ka: ")).
Proof.
  apply (proj1 (proj2 (proj2 (proj2
           (@renderers_swallow_failures (capped_libraries qr_capacity_M)
              long_payload empty_world))))).
  reflexivity.
Defined.

(** C5, the claim as stated fails: a payload of 6000 letters is beyond the
    capacity of every QR symbol, the encoder raises [DataOverflowError], and
    [get_qr_code] returns the empty string instead of failing; and so it
    does with any library whose encoder raises on this payload. *)
Lemma renderers_over_capacity_return_empty :
  @qrcode_make (capped_libraries qr_capacity_M) 10 1 long_payload
  = Error DataOverflowError
  /\ fst (@get_qr_code (capped_libraries qr_capacity_M) long_payload 10 1
            empty_world)
     = Ok []
  /\ (forall e,
        fst (@get_qr_code (capped_libraries qr_capacity_M) long_payload 10 1
               empty_world) <> Error e)
  /\ (forall (L : Libraries) (e : exn),
        @qrcode_make L 10 1 long_payload = Error e ->
        fst (@get_qr_code L long_payload 10 1 empty_world) = Ok []).
Proof.
  assert (fst (@get_qr_code (capped_libraries qr_capacity_M) long_payload 10 1
                 empty_world) = Ok []) as H by (vm_compute; reflexivity).
  split; [vm_compute; reflexivity|]. split; [exact H|]. split.
  - intros e. rewrite H. discriminate.
  - intros L e He. rewrite get_qr_code_chain. unfold qr_chain.
    rewrite He. reflexivity.
Qed.

(** * Further properties of the code *)

(** ** Reference numbers *)

Section ReferenceNumbers.

Lemma split_parts_no_sep sep s :
  Forall (fun p => contains sep p = false) (split sep s).
Proof.
  induction s as [|c s IH]; simpl; [repeat constructor|].
  destruct (N.eqb_spec c sep) as [->|Hne].
  - constructor; [reflexivity | exact IH].
  - destruct (split sep s) as [|p ps]; [repeat constructor|].
    + unfold contains. simpl. rewrite orb_false_r. apply N.eqb_neq. congruence.
    + inversion IH as [|? ? Hp Hps]; subst. constructor; [|exact Hps].
      unfold contains in *. simpl. rewrite Hp, orb_false_r.
      apply N.eqb_neq. congruence.
Qed.

Lemma length_split_cons sep c s :
  length (split sep (c :: s))
  = (if N.eqb c sep then 1 else 0) + length (split sep s).
Proof.
  simpl. destruct (N.eqb c sep); [reflexivity|].
  pose proof (split_nonempty sep s) as H.
  destruct (split sep s); [congruence | reflexivity].
Qed.

(** A prefix of a string has no more segments than the string. *)
Lemma length_split_take sep n s :
  length (split sep (take n s)) <= length (split sep s).
Proof.
  revert n. induction s as [|c s IH]; intros n.
  - destruct n; simpl; lia.
  - destruct n as [|n].
    + simpl take. pose proof (split_length_pos sep (c :: s)). simpl in *. lia.
    + simpl take. rewrite !length_split_cons. specialize (IH n). lia.
Qed.

Lemma nth_no_sep sep (parts : list str) i :
  Forall (fun p => contains sep p = false) parts ->
  contains sep (nth i parts []) = false.
Proof.
  intros H. revert i. induction H as [|p ps Hp Hps IH]; intros [|i]; simpl;
    try reflexivity; [exact Hp | apply IH].
Qed.

(** The three branches of [extract_reference_number]. *)
Lemma extract_reference_number_branches doc_name :
  let parts := split dash doc_name in
  (4 <= length parts /\
   extract_reference_number doc_name
   = join [dash] [nth 1 parts []; nth 2 parts []; nth 3 parts []])
  \/ (length parts = 3 /\ extract_reference_number doc_name = doc_name)
  \/ (length parts < 3 /\ extract_reference_number doc_name = take 10 doc_name).
Proof.
  intros parts. unfold extract_reference_number. fold parts.
  destruct (Nat.leb_spec 4 (length parts)) as [H4|H4]; [left; split; [lia|reflexivity]|].
  destruct (Nat.leb_spec 3 (length parts)) as [H3|H3].
  - right. left. assert (length parts = 3) as E by lia. split; [exact E|].
    rewrite E. simpl. unfold parts. apply (join_split dash).
  - right. right. split; [lia | reflexivity].
Qed.

Lemma split_three_parts (p1 p2 p3 : str) :
  contains dash p1 = false -> contains dash p2 = false ->
  contains dash p3 = false ->
  split dash (join [dash] [p1; p2; p3]) = [p1; p2; p3].
Proof.
  intros H1 H2 H3. apply split_join; [discriminate|].
  repeat (constructor; [assumption|]). constructor.
Qed.

End ReferenceNumbers.

(** X1. Extracting a reference number from a reference number changes
    nothing: [extract_reference_number] is idempotent. *)
Theorem extract_reference_number_idempotent (doc_name : str) :
  extract_reference_number (extract_reference_number doc_name)
  = extract_reference_number doc_name.
Proof.
  pose proof (split_parts_no_sep dash doc_name) as Hparts.
  destruct (extract_reference_number_branches doc_name)
    as [[H4 E]|[[H3 E]|[H2 E]]]; cbv zeta in *.
  - rewrite E.
    destruct (extract_reference_number_branches
                (join [dash] [nth 1 (split dash doc_name) [];
                              nth 2 (split dash doc_name) [];
                              nth 3 (split dash doc_name) []]))
      as [[H _]|[[_ E']|[H _]]]; cbv zeta in *;
      try (rewrite split_three_parts in H by (apply nth_no_sep, Hparts);
           simpl in H; lia).
    exact E'.
  - rewrite E. rewrite E. reflexivity.
  - rewrite E.
    pose proof (length_split_take dash 10 doc_name) as Hle.
    destruct (extract_reference_number_branches (take 10 doc_name))
      as [[H _]|[[H _]|[_ E']]]; cbv zeta in *; try lia.
    rewrite E'. rewrite take_take. f_equal.
Qed.

(** X2. In an identifier of four or more dash-separated segments, the first
    segment and everything after the fourth are dropped: the reference is
    segments two to four joined by "-". *)
Theorem extract_reference_number_drops_prefix_and_tail
    (p0 p1 p2 p3 : str) (rest : list str) :
  Forall (fun p => contains dash p = false) (p0 :: p1 :: p2 :: p3 :: rest) ->
  extract_reference_number (join [dash] (p0 :: p1 :: p2 :: p3 :: rest))
  = join [dash] [p1; p2; p3].
Proof.
  intros H.
  unfold extract_reference_number.
  rewrite (split_join dash (p0 :: p1 :: p2 :: p3 :: rest)) by (discriminate || exact H).
  reflexivity.
Qed.

Lemma extract_reference_number_drops_prefix_and_tail_witness :
  extract_reference_number
    (join [dash] [py "ACC"; py "SINV"; py "2024"; py "00001"; py "A"; py "B"])
  = join [dash] [py "SINV"; py "2024"; py "00001"].
Proof.
  apply (extract_reference_number_drops_prefix_and_tail
           (py "ACC") (py "SINV") (py "2024") (py "00001") [py "A"; py "B"]).
  repeat (constructor; [reflexivity|]). constructor.
Defined.

(** X3. A reference number has at most three dash-separated segments, that
    is at most two dashes; and it is at most ten characters long unless the
    identifier has three or more segments. *)
Theorem extract_reference_number_bounds (doc_name : str) :
  length (split dash (extract_reference_number doc_name)) <= 3
  /\ (length (extract_reference_number doc_name) <= 10
      \/ 3 <= length (split dash doc_name)).
Proof.
  pose proof (split_parts_no_sep dash doc_name) as Hparts.
  destruct (extract_reference_number_branches doc_name)
    as [[H4 E]|[[H3 E]|[H2 E]]]; cbv zeta in *; rewrite E.
  - split; [|right; lia].
    rewrite split_three_parts by (apply nth_no_sep, Hparts). simpl. lia.
  - split; [lia | right; lia].
  - pose proof (length_split_take dash 10 doc_name). split; [lia|].
    left. rewrite length_take. lia.
Qed.

(** ** Document labels *)

(** X4. The label of a document is "Dokument br." for every document type
    other than the four in the table. *)
Theorem get_document_type_label_default (doc : MockDocument) :
  doctype doc <> py "Sales Invoice" ->
  doctype doc <> py "Quotation" ->
  doctype doc <> py "Purchase Order" ->
  doctype doc <> py "Delivery Note" ->
  get_document_type_label doc = py "Dokument br.".
Proof.
  intros H1 H2 H3 H4. unfold get_document_type_label. cbn [dict_get].
  repeat (case_decide; [congruence|]). reflexivity.
Qed.

Lemma get_document_type_label_default_witness :
  get_document_type_label
    {| doctype := py "Sales Order"; name := []; company := [];
       grand_total := 0%float; custom_odjel := None; iban := []; bic := [] |}
  = py "Dokument br.".
Proof.
  apply get_document_type_label_default; simpl; discriminate.
Defined.

(** ** The HUB30 amount field *)

Section AmountField.

Local Open Scope Z_scope.

(** The digits of a number below [10 ^ m] are at most [m]. *)
Lemma digits_aux_length_le (fuel : nat) :
  forall (m : nat) n acc,
    0 <= n < 10 ^ Z.of_nat m -> (1 <= m)%nat ->
    (length (digits_aux fuel n acc) <= m + length acc)%nat.
Proof.
  induction fuel as [|f IH]; intros m n acc Hn Hm; cbn [digits_aux]; [lia|].
  destruct (Z.ltb_spec n 10) as [Hlt|Hge]; [simpl; lia|].
  destruct m as [|[|m]]; [lia| |].
  - change (10 ^ Z.of_nat 1) with 10 in Hn. lia.
  - assert (0 <= n / 10 < 10 ^ Z.of_nat (S m)) as Hq.
    { split; [apply Z.div_pos; lia|].
      apply Z.div_lt_upper_bound; [lia|].
      rewrite (Nat2Z.inj_succ (S m)), Z.pow_succ_r in Hn by lia. lia. }
    specialize (IH (S m) (n / 10) (digit (n mod 10) :: acc) Hq ltac:(lia)).
    simpl in IH. lia.
Qed.

(** The digits of a number from [10 ^ m] on are more than [m]. *)
Lemma digits_aux_length_gt (fuel : nat) :
  forall (m : nat) n acc,
    10 ^ Z.of_nat m <= n < 2 ^ Z.of_nat fuel ->
    (m + length acc < length (digits_aux fuel n acc))%nat.
Proof.
  induction fuel as [|f IH]; intros m n acc Hn.
  - change (2 ^ Z.of_nat 0) with 1 in Hn.
    pose proof (Z.pow_pos_nonneg 10 (Z.of_nat m) ltac:(lia) ltac:(lia)). lia.
  - cbn [digits_aux].
    destruct (Z.ltb_spec n 10) as [Hlt|Hge].
    + destruct m as [|m]; [simpl; lia|].
      rewrite Nat2Z.inj_succ, Z.pow_succ_r in Hn by lia.
      pose proof (Z.pow_pos_nonneg 10 (Z.of_nat m) ltac:(lia) ltac:(lia)). lia.
    + assert (n / 10 < 2 ^ Z.of_nat f) as Hub.
      { apply Z.div_lt_upper_bound; [lia|].
        rewrite Nat2Z.inj_succ, Z.pow_succ_r in Hn by lia. lia. }
      destruct m as [|m].
      * assert (10 ^ Z.of_nat 0 <= n / 10 < 2 ^ Z.of_nat f) as Hq.
        { change (10 ^ Z.of_nat 0) with 1. split; [|exact Hub].
          apply Z.div_le_lower_bound; lia. }
        specialize (IH 0%nat (n / 10) (digit (n mod 10) :: acc) Hq).
        simpl in IH. simpl. lia.
      * assert (10 ^ Z.of_nat m <= n / 10 < 2 ^ Z.of_nat f) as Hq.
        { split; [|exact Hub].
          apply Z.div_le_lower_bound; [lia|].
          rewrite Nat2Z.inj_succ, Z.pow_succ_r in Hn by lia. lia. }
        specialize (IH m (n / 10) (digit (n mod 10) :: acc) Hq).
        simpl in IH. simpl. lia.
Qed.

Lemma decimal_length_le (m : nat) n :
  0 <= n < 10 ^ Z.of_nat m -> (1 <= m)%nat -> (length (decimal n) <= m)%nat.
Proof.
  intros Hn Hm. pose proof (digits_aux_length_le
    (S (Z.to_nat (Z.log2 n))) m n [] Hn Hm) as H.
  change (length (@nil N)) with 0%nat in H. unfold decimal. lia.
Qed.

Lemma decimal_length_gt (m : nat) n :
  10 ^ Z.of_nat m <= n -> (m < length (decimal n))%nat.
Proof.
  intros Hn.
  pose proof (Z.pow_pos_nonneg 10 (Z.of_nat m) ltac:(lia) ltac:(lia)) as Hpos.
  assert (10 ^ Z.of_nat m <= n < 2 ^ Z.of_nat (S (Z.to_nat (Z.log2 n)))) as H.
  { split; [exact Hn|].
    rewrite Nat2Z.inj_succ, Z2Nat.id by apply Z.log2_nonneg.
    apply Z.log2_spec. lia. }
  pose proof (digits_aux_length_gt _ m n [] H) as H'.
  change (length (@nil N)) with 0%nat in H'. unfold decimal. lia.
Qed.

Lemma number_zeros k l :
  number (repeat (digit 0) k ++ l) = number l.
Proof.
  unfold number. rewrite fold_left_app.
  assert (fold_left (fun a c => 10 * a + (Z.of_N c - 48)) (repeat (digit 0) k) 0
          = 0) as ->; [|reflexivity].
  induction k as [|k IH]; [reflexivity|]. simpl. exact IH.
Qed.

(** [format_015d] on a number that fits: fifteen digits that read back. *)
Lemma format_015d_fits n :
  0 <= n < 10 ^ 15 ->
  length (format_015d n) = 15%nat
  /\ Forall (fun c => (48 <= c <= 57)%N) (format_015d n)
  /\ number (format_015d n) = n.
Proof.
  intros Hn. unfold format_015d.
  assert ((n <? 0) = false) as -> by (apply Z.ltb_ge; lia).
  rewrite Z.abs_eq by lia. cbn [app length].
  pose proof (decimal_length_le 15 n Hn ltac:(lia)) as Hlen.
  split; [|split].
  - rewrite length_app, repeat_length. lia.
  - apply Forall_app; split.
    + apply List.Forall_forall. intros c Hc. apply repeat_spec in Hc. subst c.
      apply digit_range. lia.
    + apply decimal_Forall. exact digit_range.
  - rewrite number_zeros. apply decimal_number. lia.
Qed.

End AmountField.

(** X5. When the amount in cents is non-negative and below [10 ^ 15], the
    amount field of the HUB30 lines is exactly fifteen decimal digits, and
    read as a number it is the amount in cents. *)
Theorem hub30_amount_field_width (doc : MockDocument) (cents : Z) :
  int_of_float (PrimFloat.mul (grand_total doc) 100%float) = Ok cents ->
  (0 <= cents < 10 ^ 15)%Z ->
  exists lines,
    hub30_lines doc = Ok lines
    /\ length (nth 2 lines []) = 15
    /\ Forall (fun c => (48 <= c <= 57)%N) (nth 2 lines [])
    /\ number (nth 2 lines []) = cents.
Proof.
  intros Hcents Hrange. eexists. split.
  - unfold hub30_lines. rewrite Hcents. reflexivity.
  - cbn [nth]. apply format_015d_fits. exact Hrange.
Qed.

Lemma hub30_amount_field_width_witness :
  exists lines,
    hub30_lines default_document = Ok lines
    /\ length (nth 2 lines []) = 15
    /\ Forall (fun c => (48 <= c <= 57)%N) (nth 2 lines [])
    /\ number (nth 2 lines []) = 150000%Z.
Proof.
  apply (hub30_amount_field_width default_document 150000).
  - vm_compute. reflexivity.
  - vm_compute. split; [discriminate | reflexivity].
Defined.

(** X6. The encoder does not validate the amount: a negative amount in
    cents gives a field that starts with "-", and an amount of [10 ^ 15]
    cents or more gives a field longer than fifteen characters. *)
Theorem hub30_amount_field_unchecked (doc : MockDocument) (cents : Z) :
  int_of_float (PrimFloat.mul (grand_total doc) 100%float) = Ok cents ->
  exists lines,
    hub30_lines doc = Ok lines
    /\ ((cents < 0)%Z -> exists digits, nth 2 lines [] = dash :: digits)
    /\ ((10 ^ 15 <= cents)%Z -> 15 < length (nth 2 lines [])).
Proof.
  intros Hcents. eexists. split; [|split].
  - unfold hub30_lines. rewrite Hcents. reflexivity.
  - intros Hneg. cbn [nth]. unfold format_015d.
    assert ((cents <? 0)%Z = true) as -> by (apply Z.ltb_lt; exact Hneg).
    eexists. reflexivity.
  - intros Hbig. cbn [nth]. unfold format_015d.
    assert ((cents <? 0)%Z = false) as -> by (apply Z.ltb_ge; lia).
    rewrite Z.abs_eq by lia.
    pose proof (decimal_length_gt 15 cents Hbig) as H.
    cbn [app]. rewrite length_app. lia.
Qed.

Lemma hub30_amount_field_unchecked_witness :
  (exists digits,
     (lines <- hub30_lines (with_total default_document (-1)%float) ;;
      Ok (nth 2 lines [])) = Ok (dash :: digits))
  /\ (exists field,
     (lines <- hub30_lines (with_total default_document 1e14%float) ;;
      Ok (nth 2 lines [])) = Ok field /\ 15 < length field).
Proof.
  split.
  - destruct (hub30_amount_field_unchecked
                (with_total default_document (-1)%float) (-100)
                ltac:(vm_compute; reflexivity)) as (lines & E & Hneg & _).
    destruct (Hneg ltac:(lia)) as (digits & Hd).
    exists digits. rewrite E. cbn [bind_result]. rewrite Hd. reflexivity.
  - destruct (hub30_amount_field_unchecked
                (with_total default_document 1e14%float) (10 ^ 16)
                ltac:(vm_compute; reflexivity)) as (lines & E & _ & Hbig).
    exists (nth 2 lines []). rewrite E. split; [reflexivity|].
    apply Hbig. vm_compute. discriminate.
Defined.

(** ** What the payloads depend on *)

(** X7. The HUB30 payload depends only on the identifier, the payee name
    and the amount of the document: its type, department, own IBAN and BIC
    are never used.  The BCD payload depends on those three, the document
    type and the BIC, and never on the department or the document's own
    IBAN. *)
Theorem payloads_ignore_other_fields (doc1 doc2 : MockDocument) :
  name doc1 = name doc2 ->
  company doc1 = company doc2 ->
  grand_total doc1 = grand_total doc2 ->
  generate_hub30_payload doc1 = generate_hub30_payload doc2
  /\ (doctype doc1 = doctype doc2 -> bic doc1 = bic doc2 ->
      generate_bcd_payload doc1 = generate_bcd_payload doc2).
Proof.
  intros Hn Hc Hg. split.
  - unfold generate_hub30_payload, hub30_lines, get_iban_by_department.
    rewrite Hn, Hc, Hg. reflexivity.
  - intros Hd Hb.
    unfold generate_bcd_payload, bcd_lines, get_iban_by_department,
      get_document_type_label.
    rewrite Hn, Hc, Hg, Hd, Hb. reflexivity.
Qed.

Lemma payloads_ignore_other_fields_witness :
  generate_hub30_payload default_document
  = generate_hub30_payload
      {| doctype := py "Quotation"; name := name default_document;
         company := company default_document;
         grand_total := grand_total default_document;
         custom_odjel := Some (py "Prodaja");
         iban := py "HR9876543210987654321"; bic := py "PBZGHR2X" |}.
Proof.
  apply (proj1 (payloads_ignore_other_fields default_document
    {| doctype := py "Quotation"; name := name default_document;
       company := company default_document;
       grand_total := grand_total default_document;
       custom_odjel := Some (py "Prodaja");
       iban := py "HR9876543210987654321"; bic := py "PBZGHR2X" |}
    eq_refl eq_refl eq_refl)).
Defined.

(** ** The data URI *)

Section DataUri.

Lemma b64encode_three a b c rest :
  exists c0 c1 c2 c3,
    b64encode (a :: b :: c :: rest) = c0 :: c1 :: c2 :: c3 :: b64encode rest.
Proof. repeat eexists. Qed.

Lemma length_b64encode (n : nat) :
  forall data,
    length data <= n ->
    length (b64encode data) = 4 * ((length data + 2) / 3).
Proof.
  induction n as [n IH] using (well_founded_induction lt_wf).
  intros data Hlen.
  destruct data as [|a [|b [|c rest]]]; try reflexivity.
  destruct (b64encode_three a b c rest) as (c0 & c1 & c2 & c3 & ->).
  cbn [length] in *.
  rewrite (IH (length rest)) by lia.
  replace (S (S (S (length rest))) + 2) with (length rest + 2 + 1 * 3) by lia.
  rewrite Nat.div_add by lia. lia.
Qed.

End DataUri.

(** X8. The data URI of [n] bytes is the 22 characters of the prefix
    followed by four characters for every started group of three bytes. *)
Theorem buffer_to_data_uri_length (buf : list byte) :
  length (buffer_to_data_uri buf) = 22 + 4 * ((length buf + 2) / 3).
Proof.
  unfold buffer_to_data_uri, decode.
  rewrite length_app, length_map.
  rewrite (length_b64encode (length buf) buf (le_n _)). reflexivity.
Qed.

(** X9. Different byte streams have different data URIs. *)
Theorem buffer_to_data_uri_injective (buf1 buf2 : list byte) :
  buffer_to_data_uri buf1 = buffer_to_data_uri buf2 -> buf1 = buf2.
Proof.
  unfold buffer_to_data_uri. intros H. apply app_inv_head in H.
  pose proof (b64decode_b64encode buf1) as H1.
  rewrite H, b64decode_b64encode in H1. congruence.
Qed.

Lemma buffer_to_data_uri_injective_witness :
  png_signature = png_signature.
Proof.
  apply (buffer_to_data_uri_injective png_signature png_signature).
  reflexivity.
Defined.

(** ** Saving a data URI *)

Section Saving.

(** What [save_data_uri_to_file] does with a reference that has the prefix:
    it decodes the text up to the next comma and writes the result. *)
Lemma save_prefixed (s filename : str) (w : world) :
  save_data_uri_to_file (py "data:image/png;base64," ++ s) filename w =
    match b64decode (hd [] (split comma s)) with
    | Error e => (Error e, w)
    | Ok image_data =>
        match open_error w filename with
        | Some e => (Error e, w)
        | None =>
            print (py "Slika spremljena: " ++ filename)
              {| files := <[filename := image_data]> (files w);
                 open_error := open_error w;
                 print_error := print_error w;
                 stdout := stdout w |}
        end
    end.
Proof.
  unfold save_data_uri_to_file. rewrite startswith_app.
  change (py "data:image/png;base64,")
    with (py "data:image/png;base64" ++ [comma]).
  rewrite <- app_assoc. simpl ([comma] ++ _).
  rewrite split_app_sep by reflexivity.
  pose proof (split_nonempty comma s) as Hne.
  destruct (split comma s) as [|seg segs]; [congruence|].
  unfold bind, lift, index, write_file. cbn [nth_error hd].
  destruct (b64decode seg) as [image_data|e]; [|reflexivity].
  destruct (open_error w filename); reflexivity.
Qed.

End Saving.

(** X10. When opening the file for writing raises, saving a data URI
    raises that same exception, and nothing is written or printed. *)
Theorem save_unwritable (buf : list byte) (filename : str) (w : world)
    (e : exn) :
  open_error w filename = Some e ->
  save_data_uri_to_file (buffer_to_data_uri buf) filename w = (Error e, w).
Proof.
  intros Hw. unfold buffer_to_data_uri. rewrite save_prefixed.
  rewrite split_no_sep.
  - cbn [hd]. rewrite b64decode_b64encode, Hw. reflexivity.
  - apply contains_false_Forall.
    eapply Forall_impl; [apply (b64encode_plain (length buf)); apply le_n|].
    intros c [_ Hc]. exact Hc.
Qed.

Lemma save_unwritable_witness :
  save_data_uri_to_file (buffer_to_data_uri png_signature) (py "qr.png")
    {| files := ∅;
       open_error := fun f => if contains 0%N f then Some ValueError
                              else Some OSError;
       print_error := fun _ => None; stdout := [] |}
  = (Error OSError,
     {| files := ∅;
        open_error := fun f => if contains 0%N f then Some ValueError
                               else Some OSError;
        print_error := fun _ => None; stdout := [] |}).
Proof.
  apply (save_unwritable png_signature (py "qr.png")
           {| files := ∅;
              open_error := fun f => if contains 0%N f then Some ValueError
                                     else Some OSError;
              print_error := fun _ => None; stdout := [] |} OSError).
  reflexivity.
Defined.

(** X11. Whatever the reference, [save_data_uri_to_file] touches no file
    other than the one named, changes no permission, and prints at most one
    line. *)
Theorem save_frame (data_uri filename other : str) (w : world) :
  other <> filename ->
  let w' := snd (save_data_uri_to_file data_uri filename w) in
  files w' !! other = files w !! other
  /\ writable w' = writable w
  /\ (stdout w' = stdout w
      \/ stdout w' = stdout w ++ [py "Slika spremljena: " ++ filename]).
Proof.
  intros Hne. cbv zeta.
  unfold save_data_uri_to_file.
  destruct (startswith _ data_uri); [|simpl; auto].
  unfold bind, lift, index, write_file, print.
  destruct (nth_error (split comma data_uri) 1) as [seg|]; [|simpl; auto].
  destruct (b64decode seg) as [image_data|e]; [|simpl; auto].
  destruct (open_error w filename); [simpl; auto|].
  unfold printed.
  destruct (print_error _ _); cbn [snd files open_error print_error stdout];
    (split; [apply lookup_insert_ne; congruence | auto]).
Qed.

Lemma save_frame_witness :
  files (snd (save_data_uri_to_file (buffer_to_data_uri png_signature)
                (py "qr.png") empty_world)) !! py "other.png"
  = files empty_world !! py "other.png".
Proof.
  apply (save_frame (buffer_to_data_uri png_signature) (py "qr.png")
           (py "other.png") empty_world).
  discriminate.
Defined.

(** X12. When the text after the prefix has no comma and is not valid
    Base64, saving raises the decoder's exception and writes nothing. *)
Theorem save_invalid_base64 (s filename : str) (w : world) (e : exn) :
  contains comma s = false ->
  b64decode s = Error e ->
  save_data_uri_to_file (py "data:image/png;base64," ++ s) filename w
  = (Error e, w).
Proof.
  intros Hc He. rewrite save_prefixed, split_no_sep by exact Hc.
  cbn [hd]. rewrite He. reflexivity.
Qed.

Lemma save_invalid_base64_witness :
  save_data_uri_to_file (py "data:image/png;base64," ++ py "iVBORw0KGgo")
    (py "qr.png") empty_world
  = (Error BinasciiError, empty_world).
Proof.
  apply (save_invalid_base64 (py "iVBORw0KGgo") (py "qr.png") empty_world
           BinasciiError); reflexivity.
Defined.

(** X13. Only the text between the prefix and the next comma is decoded:
    whatever follows a second comma is ignored. *)
Theorem save_ignores_after_second_comma (s junk filename : str) (w : world) :
  contains comma s = false ->
  save_data_uri_to_file
    (py "data:image/png;base64," ++ s ++ [comma] ++ junk) filename w
  = save_data_uri_to_file (py "data:image/png;base64," ++ s) filename w.
Proof.
  intros Hc. rewrite !save_prefixed.
  simpl ([comma] ++ junk).
  rewrite split_app_sep by exact Hc. rewrite (split_no_sep comma s) by exact Hc.
  reflexivity.
Qed.

Lemma save_ignores_after_second_comma_witness :
  save_data_uri_to_file
    (py "data:image/png;base64," ++ py "iVBORw0KGgo=" ++ [comma] ++ py "!!")
    (py "qr.png") empty_world
  = save_data_uri_to_file
      (py "data:image/png;base64," ++ py "iVBORw0KGgo=") (py "qr.png")
      empty_world.
Proof.
  apply (save_ignores_after_second_comma (py "iVBORw0KGgo=") (py "!!")
           (py "qr.png") empty_world).
  reflexivity.
Defined.

(** ** Autocrop keeps the content *)

(** X14. On an RGB image, the mode both callers convert to before cropping,
    the result of [auto_crop_white] is a sub-rectangle of the image:
    it lies inside the image (so it is never larger), its pixels are the
    pixels of the image at an offset, and every pixel of the image that is
    not white lies inside it. *)
Theorem auto_crop_white_keeps_content (img : image) :
  exists dx dy,
    dx + width (auto_crop_white img) <= width img
    /\ dy + height (auto_crop_white img) <= height img
    /\ (forall x y,
          x < width (auto_crop_white img) ->
          y < height (auto_crop_white img) ->
          pixel_at (auto_crop_white img) x y = pixel_at img (dx + x) (dy + y))
    /\ (forall x y,
          x < width img -> y < height img -> pixel_at img x y <> white ->
          dx <= x < dx + width (auto_crop_white img)
          /\ dy <= y < dy + height (auto_crop_white img)).
Proof.
  unfold auto_crop_white. rewrite getbbox_difference_white.
  destruct (bbox_of (content img)) as [[[[x0 y0] x1] y1]|] eqn:Hb.
  - destruct (bbox_of_Some _ _ _ _ _ Hb)
      as (Hin & [ya Ha] & [yb Hb'] & Hx1 & [xa Hc] & [xb Hd] & Hy1).
    pose proof (Hin _ _ Ha) as [Bx _]. pose proof (Hin _ _ Hc) as [_ By].
    apply in_content in Hb' as (Wx & _ & _).
    apply in_content in Hd as (_ & Wy & _).
    exists x0, y0. unfold crop. cbn [width height tabulate].
    split; [lia|]. split; [lia|]. split.
    + intros x y Hx Hy. rewrite pixel_at_tabulate by assumption. reflexivity.
    + intros x y Hx Hy Hp.
      assert (In (x, y) (content img)) as H by (apply in_content; tauto).
      apply Hin in H. lia.
  - exists 0, 0. split; [lia|]. split; [lia|]. split; [reflexivity|].
    intros x y Hx Hy Hp. exfalso.
    assert (In (x, y) (content img)) as H by (apply in_content; tauto).
    unfold bbox_of in Hb. destruct (content img); [destruct H | discriminate].
Qed.

(** ** The renderers and their callers *)

Section RenderCallers.

Context {L : Libraries}.

Lemma buffer_to_data_uri_nonempty buf : buffer_to_data_uri buf <> [].
Proof. unfold buffer_to_data_uri. discriminate. Qed.

Lemma pdf417_chain_uri data scale ratio s :
  pdf417_chain data scale ratio = Ok s -> exists buf, s = buffer_to_data_uri buf.
Proof.
  unfold pdf417_chain, bind_result.
  destruct (pdf417_encode data 9 2) as [codes|]; [|discriminate].
  destruct (pdf417_render_image codes scale ratio) as [im|]; [|discriminate].
  destruct (convert_RGB im) as [im'|]; [|discriminate].
  destruct (save_PNG (auto_crop_white im')) as [buf|]; [|discriminate].
  intros [= <-]. eauto.
Qed.

Lemma qr_chain_uri data box_size border s :
  qr_chain data box_size border = Ok s -> exists buf, s = buffer_to_data_uri buf.
Proof.
  unfold qr_chain, bind_result.
  destruct (qrcode_make box_size border data) as [qr|]; [|discriminate].
  destruct (qrcode_make_image qr) as [im|]; [|discriminate].
  destruct (convert_RGB im) as [im'|]; [|discriminate].
  destruct (save_PNG (auto_crop_white im')) as [buf|]; [|discriminate].
  intros [= <-]. eauto.
Qed.

Lemma barcode_chain_uri data barcode_type mw mh s :
  barcode_chain data barcode_type mw mh = Ok s ->
  exists buf, s = buffer_to_data_uri buf.
Proof.
  unfold barcode_chain, bind_result.
  destruct (get_barcode_class barcode_type) as [cls|]; [|discriminate].
  destruct (barcode_new cls data) as [code|]; [|discriminate].
  destruct (barcode_write code _) as [buf|]; [|discriminate].
  intros [= <-]. eauto.
Qed.

(** What a renderer that returned has returned, given the outcome of its
    chain of calls. *)
Lemma renderer_returned (chain : result str exn) (message : exn -> str)
    (w w' : world) (s : str) :
  (forall s0, chain = Ok s0 -> exists buf, s0 = buffer_to_data_uri buf) ->
  match chain with
  | Ok s0 => (Ok s0, w)
  | Error e => swallowed w (message e)
  end = (Ok s, w') ->
  files w' = files w
  /\ (s = [] <-> exists e, chain = Error e)
  /\ (s <> [] -> w' = w /\ exists buf, s = buffer_to_data_uri buf).
Proof.
  intros Huri Hout. destruct chain as [s0|e].
  - injection Hout as <- <-. destruct (Huri s0 eq_refl) as [buf ->].
    split; [reflexivity|]. split.
    + split; [intros H; exfalso; exact (buffer_to_data_uri_nonempty buf H)|].
      intros [e He]. discriminate.
    + intros _. split; [reflexivity | eauto].
  - unfold swallowed in Hout.
    destruct (print_error w (message e)); [discriminate|].
    injection Hout as <- <-. split; [reflexivity|]. split.
    + split; [eauto | reflexivity].
    + intros H. congruence.
Qed.

Lemma int_of_float_not_finite x :
  is_finite x = false ->
  exists e, (e = OverflowError \/ e = ValueError) /\ int_of_float x = Error e.
Proof.
  unfold is_finite, int_of_float, exact.
  destruct (Prim2SF x) as [s|s| |s m e]; try discriminate; eauto.
  destruct (0 <=? e)%Z; discriminate.
Qed.

End RenderCallers.

(** X15. Whenever a renderer returns, the string it returns is empty
    exactly when one of its library calls raised; a string that is not
    empty is a data URI and the world is as it was; and in no case has a
    file been written. *)
Theorem renderers_empty_iff_failed `{L : Libraries} (data : str)
    (w w' : world) (s : str) :
  (forall scale ratio,
     get_pdf417 data scale ratio w = (Ok s, w') ->
     files w' = files w
     /\ (s = [] <-> exists e, pdf417_chain data scale ratio = Error e)
     /\ (s <> [] -> w' = w /\ exists buf, s = buffer_to_data_uri buf))
  /\ (forall box_size border,
     get_qr_code data box_size border w = (Ok s, w') ->
     files w' = files w
     /\ (s = [] <-> exists e, qr_chain data box_size border = Error e)
     /\ (s <> [] -> w' = w /\ exists buf, s = buffer_to_data_uri buf))
  /\ (forall barcode_type mw mh,
     get_barcode_image data barcode_type mw mh w = (Ok s, w') ->
     files w' = files w
     /\ (s = [] <-> exists e, barcode_chain data barcode_type mw mh = Error e)
     /\ (s <> [] -> w' = w /\ exists buf, s = buffer_to_data_uri buf)).
Proof.
  split; [|split].
  - intros scale ratio H. rewrite get_pdf417_chain in H.
    eapply renderer_returned; [apply pdf417_chain_uri | exact H].
  - intros box_size border H. rewrite get_qr_code_chain in H.
    eapply renderer_returned; [apply qr_chain_uri | exact H].
  - intros barcode_type mw mh H. rewrite get_barcode_image_chain in H.
    eapply renderer_returned; [apply barcode_chain_uri | exact H].
Qed.

Lemma renderers_empty_iff_failed_witness :
  exists e,
    @qr_chain (capped_libraries qr_capacity_M) long_payload 10 1 = Error e.
Proof.
  destruct (proj1 (proj2 (@renderers_empty_iff_failed
              (capped_libraries qr_capacity_M) long_payload empty_world
              (printed empty_world
                 (py "QR kod gre" ++ [s_caron] ++ py "ka: "
                    ++ py "DataOverflowError")) []))
              10%Z 1%Z ltac:(vm_compute; reflexivity))
    as (_ & Hiff & _).
  apply Hiff. reflexivity.
Defined.

(** X16. Rendering and then saving, as the script does: when the QR
    renderer returns a non-empty string and the file can be written, the
    file then holds exactly the PNG bytes that were encoded in the string,
    and the call returns normally unless printing its message raises; when
    the renderer returns the empty string, saving it writes nothing. *)
Theorem render_then_save `{L : Libraries}
    (data filename : str) (box_size border : Z) (w w' : world) (s : str) :
  get_qr_code data box_size border w = (Ok s, w') ->
  writable w filename = true ->
  (s = [] /\ save_data_uri_to_file s filename w' = (Ok tt, w'))
  \/ (exists buf,
        s = buffer_to_data_uri buf
        /\ fst (save_data_uri_to_file s filename w')
           = match print_error w' (py "Slika spremljena: " ++ filename) with
             | None => Ok tt
             | Some e => Error e
             end
        /\ files (snd (save_data_uri_to_file s filename w')) !! filename
           = Some buf).
Proof.
  intros Hget Hw. rewrite get_qr_code_chain in Hget.
  assert (open_error w filename = None) as Hopen
    by (unfold writable in Hw; destruct (open_error w filename);
        [discriminate | reflexivity]).
  destruct (qr_chain data box_size border) as [s0|e] eqn:Hchain.
  - injection Hget as <- <-.
    destruct (qr_chain_uri _ _ _ _ Hchain) as [buf ->].
    right. exists buf. split; [reflexivity|].
    unfold buffer_to_data_uri. rewrite save_prefixed.
    rewrite split_no_sep.
    + cbn [hd]. rewrite b64decode_b64encode, Hopen.
      unfold print, printed. cbn [files open_error print_error stdout].
      destruct (print_error w (py "Slika spremljena: " ++ filename));
        cbn [fst snd files]; (split; [reflexivity | apply lookup_insert_eq]).
    + apply contains_false_Forall.
      eapply Forall_impl; [apply (b64encode_plain (length buf)); apply le_n|].
      intros c [_ Hc]. exact Hc.
  - unfold swallowed in Hget.
    destruct (print_error w _); [discriminate|].
    injection Hget as <- <-. left. split; reflexivity.
Qed.

Lemma render_then_save_witness :
  exists buf,
    buffer_to_data_uri png_signature = buffer_to_data_uri buf
    /\ files (snd (save_data_uri_to_file (buffer_to_data_uri png_signature)
                     (py "qr.png") empty_world)) !! py "qr.png" = Some buf.
Proof.
  destruct (@render_then_save (capped_libraries 50) (py "0123456789")
              (py "qr.png") 10 1 empty_world empty_world
              (buffer_to_data_uri png_signature) eq_refl eq_refl)
    as [[H _]|(buf & E & _ & Hfile)].
  - discriminate H.
  - exists buf. split; [exact E | exact Hfile].
Defined.

(** X17. [get_hub30_pdf417] builds the payload outside the [try] block: when
    the amount times 100 is not finite it raises [OverflowError] or
    [ValueError], leaving the world as it was; otherwise it is [get_pdf417]
    on the payload. *)
Theorem get_hub30_pdf417_raises `{L : Libraries}
    (doc : MockDocument) (scale : Z) (ratio : float) (w : world) :
  (is_finite (PrimFloat.mul (grand_total doc) 100%float) = false ->
   exists e,
     (e = OverflowError \/ e = ValueError)
     /\ generate_hub30_payload doc = Error e
     /\ get_hub30_pdf417 doc scale ratio w = (Error e, w))
  /\ (is_finite (PrimFloat.mul (grand_total doc) 100%float) = true ->
      exists payload,
        generate_hub30_payload doc = Ok payload
        /\ get_hub30_pdf417 doc scale ratio w
           = get_pdf417 payload scale ratio w).
Proof.
  unfold get_hub30_pdf417, generate_hub30_payload, hub30_lines.
  unfold bind at 1 2. unfold lift.
  split; intros Hfin.
  - destruct (int_of_float_not_finite _ Hfin) as (e & He & ->). eauto.
  - destruct (int_of_float_finite _ Hfin) as [cents ->]. cbn [bind_result].
    eauto.
Qed.

Lemma get_hub30_pdf417_raises_witness :
  exists e,
    (e = OverflowError \/ e = ValueError)
    /\ generate_hub30_payload (with_total default_document 1e308%float)
       = Error e
    /\ @get_hub30_pdf417 (capped_libraries 50)
         (with_total default_document 1e308%float) 3 2%float empty_world
       = (Error e, empty_world).
Proof.
  apply (proj1 (@get_hub30_pdf417_raises (capped_libraries 50)
                  (with_total default_document 1e308%float) 3 2%float
                  empty_world)).
  vm_compute. reflexivity.
Defined.

(** ** The HUB3 string of the invoice module *)

(** X19. When no field holds a newline, the HUB3 string of
    [PaymentDetails] is eleven lines, each ended by a newline: splitting it
    on newline gives the eleven fields in order and a last empty
    segment. *)
Theorem generate_hub3_string_fields (self : CRM.PaymentDetails) :
  contains newline (CRM.receiver_name self) = false ->
  contains newline (CRM.iban self) = false ->
  contains newline (CRM.model self) = false ->
  contains newline (CRM.reference_number self) = false ->
  contains newline (CRM.purpose self) = false ->
  split newline (CRM.generate_hub3_string self) =
    [ py "HRVHUB30"; py "HRK"; format_2f (CRM.amount self);
      CRM.receiver_name self; CRM.iban self; CRM.model self;
      CRM.reference_number self; []; []; []; CRM.purpose self; [] ].
Proof.
  intros H1 H2 H3 H4 H5.
  pose proof (proj1 (Forall_amount_char_contains _
                       (format_2f_amount_chars (CRM.amount self)))) as H0.
  assert (forall t, split newline (newline :: t) = [] :: split newline t) as Hnl
    by (intros t; simpl; reflexivity).
  unfold CRM.generate_hub3_string. cbv zeta. cbn [app].
  rewrite (split_app_sep newline (py "HRVHUB30")) by reflexivity.
  rewrite (split_app_sep newline (py "HRK")) by reflexivity.
  rewrite (split_app_sep newline (format_2f (CRM.amount self))) by exact H0.
  rewrite (split_app_sep newline (CRM.receiver_name self)) by exact H1.
  rewrite (split_app_sep newline (CRM.iban self)) by exact H2.
  rewrite (split_app_sep newline (CRM.model self)) by exact H3.
  rewrite (split_app_sep newline (CRM.reference_number self)) by exact H4.
  rewrite !Hnl.
  rewrite (split_app_sep newline (CRM.purpose self)) by exact H5.
  reflexivity.
Qed.

Lemma generate_hub3_string_fields_witness :
  length (split newline
            (CRM.generate_hub3_string
               {| CRM.iban := py "HR1234567890123456789";
                  CRM.model := py "HR00";
                  CRM.reference_number := py "INV-1001-2024";
                  CRM.amount := 2318.75%float;
                  CRM.receiver_name := py "Steel Works d.o.o.";
                  CRM.purpose := py "Placanje po racunu INV-1001" |}))
  = 12.
Proof.
  rewrite generate_hub3_string_fields; reflexivity.
Defined.

(** ** The characters of the payload *)

Section PayloadCharacters.

Lemma in_join_nth (c : N) sep (l : list str) i :
  In c (nth i l []) -> In c (join sep l).
Proof.
  revert i. induction l as [|x l IH]; intros i H.
  - destruct i; destruct H.
  - rewrite join_cons_cases. apply in_or_app. destruct i as [|i].
    + left. exact H.
    + right. destruct l as [|y l]; [destruct i; destruct H|].
      apply in_or_app. right. apply (IH i). exact H.
Qed.

End PayloadCharacters.

(** Where the reference number sits in the identifier, branch by branch. *)
Lemma reference_number_within (doc_name : str) :
  (exists first tail,
     doc_name = first ++ [dash] ++ extract_reference_number doc_name ++ tail)
  \/ extract_reference_number doc_name = doc_name
  \/ extract_reference_number doc_name = take 10 doc_name.
Proof.
  pose proof (join_split dash doc_name) as Hjoin.
  destruct (extract_reference_number_branches doc_name)
    as [[H4 E]|[[H3 E]|[H2 E]]]; cbv zeta in *; [left | tauto | tauto].
  rewrite E.
  destruct (split dash doc_name) as [|p0 [|p1 [|p2 [|p3 rest]]]];
    simpl in H4; try lia.
  cbn [nth]. rewrite <- Hjoin.
  exists p0,
         (match rest with [] => [] | _ :: _ => [dash] ++ join [dash] rest end).
  rewrite (join_cons_cases [dash] p0), (join_cons_cases [dash] p1),
    (join_cons_cases [dash] p2), (join_cons_cases [dash] p3),
    (join_cons_cases [dash] p1 [p2; p3]), (join_cons_cases [dash] p2 [p3]).
  simpl (join [dash] [p3]).
  rewrite <- !app_assoc. reflexivity.
Qed.

(** X20. The reference number is always a contiguous part of the
    identifier: some prefix and some suffix of the identifier are cut off,
    and nothing else changes. *)
Theorem extract_reference_number_substring (doc_name : str) :
  exists before after,
    doc_name = before ++ extract_reference_number doc_name ++ after.
Proof.
  destruct (reference_number_within doc_name)
    as [(first & tail & E)|[E|E]].
  - exists (first ++ [dash]), tail. rewrite <- app_assoc. exact E.
  - exists [], []. rewrite E. now rewrite app_nil_r.
  - exists [], (drop 10 doc_name). rewrite E. simpl. symmetry. apply take_drop.
Qed.

(** X21. The description field of the HUB30 lines is ASCII whenever the
    identifier is, yet every HUB30 payload holds a character outside
    ASCII: the letter U+017E in the payee's city. *)
Theorem hub30_not_ascii (doc : MockDocument) (payload : str) :
  generate_hub30_payload doc = Ok payload ->
  In z_caron payload
  /\ ~ Forall (fun c => (c < 128)%N) payload
  /\ (Forall (fun c => (c < 128)%N) (name doc) ->
      exists lines,
        hub30_lines doc = Ok lines
        /\ Forall (fun c => (c < 128)%N) (nth 13 lines [])).
Proof.
  unfold generate_hub30_payload.
  destruct (hub30_lines doc) as [lines|e] eqn:Hlines; [|discriminate].
  cbn [bind_result]. intros [= <-].
  unfold hub30_lines in Hlines.
  destruct (int_of_float _) as [cents|]; [|discriminate].
  cbn [bind_result] in Hlines. injection Hlines as <-.
  assert (In z_caron
            (join [newline]
               [py "HRVHUB30"; py "EUR"; format_015d cents; []; []; [];
                company doc; py "Racka 1C";
                py "10250 Je" ++ [z_caron] ++ py "dovec";
                get_iban_by_department doc; py "HR00";
                extract_reference_number (name doc); [];
                py "Racun br. " ++ extract_reference_number (name doc); []]))
    as Hin.
  { apply (in_join_nth z_caron [newline] _ 8). cbn [nth].
    apply in_or_app. right. left. reflexivity. }
  split; [exact Hin|]. split.
  - intros Hall. rewrite List.Forall_forall in Hall. apply Hall in Hin.
    unfold z_caron in Hin. lia.
  - intros Hname. eexists. split; [reflexivity|].
    change (Forall (fun c => (c < 128)%N)
              (py "Racun br. " ++ extract_reference_number (name doc))).
    apply Forall_app. split.
    + repeat (constructor; [reflexivity|]). constructor.
    + destruct (reference_number_within (name doc))
        as [(first & tail & E)|[E|E]].
      * rewrite E in Hname.
        apply Forall_app in Hname as [_ Hname].
        apply Forall_app in Hname as [_ Hname].
        apply Forall_app in Hname as [Hname _]. exact Hname.
      * rewrite E. exact Hname.
      * rewrite E. apply Forall_take. exact Hname.
Qed.

Lemma hub30_not_ascii_witness :
  exists payload,
    generate_hub30_payload default_document = Ok payload
    /\ In z_caron payload.
Proof.
  eexists. split; [reflexivity|].
  apply (hub30_not_ascii default_document _ eq_refl).
Defined.
